(** * UDS-REPL-Lab: single-frame codec, ECU stub dispatcher and UDS client

    A shallow embedding of [uds_uds.py].  Python [bytes] values are lists of
    [Byte.byte]; Python integers are [Z]; a Python exception is the [Raise]
    branch of [Result].  Everything the program does to the outside world
    (CAN frames put on the bus, [time.sleep], console lines) is recorded, in
    order, as a list of [Effect]s. *)

From Stdlib Require Import ZArith List Bool Lia.
From Stdlib.Strings Require Import Byte.
Import ListNotations.
Local Open Scope Z_scope.

(** ** Python values and exceptions *)

Inductive Exn : Type :=
| ValueError
| IndexError
| TimeoutError.

Inductive Result (A : Type) : Type :=
| Ok (a : A)
| Raise (e : Exn).
Arguments Ok {A} a.
Arguments Raise {A} e.

Definition bytes : Type := list byte.

(** [b[i]] on a bytes object yields an integer in [0, 255]. *)
Definition byte_int (b : byte) : Z := Z.of_N (Byte.to_N b).

(** One element of [bytes([...])]: integers outside [range(256)] raise
    [ValueError]. *)
Definition int_byte (z : Z) : Result byte :=
  if (0 <=? z) && (z <? 256) then
    match Byte.of_N (Z.to_N z) with
    | Some b => Ok b
    | None => Raise ValueError
    end
  else Raise ValueError.

(** [bytes(ints)] for a list of integers. *)
Fixpoint bytes_of (ints : list Z) : Result bytes :=
  match ints with
  | [] => Ok []
  | z :: rest =>
      match int_byte z with
      | Raise e => Raise e
      | Ok b =>
          match bytes_of rest with
          | Raise e => Raise e
          | Ok bs => Ok (b :: bs)
          end
      end
  end.

(** [data[i]] for a non-negative index: [IndexError] past the end. *)
Definition index (data : bytes) (i : nat) : Result Z :=
  match nth_error data i with
  | Some b => Ok (byte_int b)
  | None => Raise IndexError
  end.

(** [len(data)] as a Python integer. *)
Definition len (data : bytes) : Z := Z.of_nat (length data).

(** [data[lo:hi]] for non-negative bounds: Python clips the slice to the
    bytes that exist and never raises. *)
Definition slice (data : bytes) (lo hi : Z) : bytes :=
  firstn (Z.to_nat (hi - lo)) (skipn (Z.to_nat lo) data).

(** [data.ljust(width, fill)]. *)
Definition ljust (data : bytes) (width : nat) (fill : byte) : bytes :=
  data ++ repeat fill (width - length data).

(** ** ISO-TP Single-Frame utilities *)

Definition make_isotp_single_frame (payload : bytes) : Result bytes :=
  if len payload >? 7 then Raise ValueError
  else
    let pci := Z.land (len payload) 0x0F in
    match bytes_of [pci] with
    | Raise e => Raise e
    | Ok hd => Ok (ljust (hd ++ payload) 8 x00)
    end.

Definition parse_isotp_single_frame (data : bytes) : Result bytes :=
  match data with
  | [] => Ok []
  | _ :: _ =>
      match index data 0 with
      | Raise e => Raise e
      | Ok d0 =>
          let length := Z.land d0 0x0F in
          Ok (slice data 1 (1 + length))
      end
  end.

(** ** The CAN bus and the outside world *)

(** [can.Message(arbitration_id=..., is_extended_id=..., data=...)]. *)
Record Message : Type := mkMessage {
  arbitration_id : Z;
  is_extended_id : bool;
  data : bytes
}.

(** What the program does to its environment, in program order. *)
Inductive Effect : Type :=
| BusSend (msg : Message)      (* [bus.send(msg)] *)
| Sleep (ms : Z)               (* [time.sleep(ms / 1000)] *)
| ShowInterim (pl : bytes).   (* [print("INTERIM:", hexstr(pl), ...)] *)

Record ECUConfig : Type := mkECUConfig {
  req_id : Z;   (* Tester -> ECU *)
  res_id : Z    (* ECU -> Tester *)
}.

Definition ECUConfig_default : ECUConfig :=
  {| req_id := 0x7E0; res_id := 0x7E8 |}.

(** ** Minimal ECU stub (server) *)

Module MiniECUStub.

(** The fields of the thread object that [run] reads or writes.  The bus is
    external: frames sent on it are [BusSend] effects, frames received from
    it are arguments of [run]. *)
Record Self : Type := mkSelf {
  cfg : ECUConfig;
  unlocked : bool;
  _last_seed : option Z;
  did_map : list ((Z * Z) * bytes)
}.

Definition __init__ (c : ECUConfig) : Self :=
  {| cfg := c;
     unlocked := false;
     _last_seed := None;
     did_map :=
       [ ((0xF1, 0x87), [x56; x31; x30]);   (* "V10" *)
         ((0xF1, 0x88), [x45; x43; x55]);   (* "ECU" *)
         ((0xF1, 0x8C), [x42; x54; x31]);   (* "BT1" *)
         ((0xF1, 0x89), [x48; x57; x31]);   (* "HW1" *)
         ((0xF1, 0x95), [x53; x55; x50]);   (* "SUP" *)
         ((0xF1, 0xA0), [x58; x31]) ]       (* "X1" *)
  |}.

(** [self.unlocked = u] and [self._last_seed = seed]. *)
Definition set_unlocked (u : bool) (self : Self) : Self :=
  {| cfg := cfg self; unlocked := u;
     _last_seed := _last_seed self; did_map := did_map self |}.

Definition set_last_seed (seed : option Z) (self : Self) : Self :=
  {| cfg := cfg self; unlocked := unlocked self;
     _last_seed := seed; did_map := did_map self |}.

(** [dict.get(key)]: the value of the first matching key, else [None]. *)
Fixpoint dict_get (d : list ((Z * Z) * bytes)) (key : Z * Z) : option bytes :=
  match d with
  | [] => None
  | ((hi, lo), v) :: rest =>
      if (hi =? fst key) && (lo =? snd key) then Some v else dict_get rest key
  end.

(** A method body: reads and writes [Self], may raise, and appends to the
    trace of effects. *)
Definition M (A : Type) : Type := Self -> Result A * Self * list Effect.

Definition ret {A : Type} (a : A) : M A := fun s => (Ok a, s, []).

Definition bind {A B : Type} (m : M A) (k : A -> M B) : M B :=
  fun s =>
    match m s with
    | (Ok a, s1, t1) =>
        match k a s1 with
        | (r, s2, t2) => (r, s2, t1 ++ t2)
        end
    | (Raise e, s1, t1) => (Raise e, s1, t1)
    end.

Definition lift {A : Type} (r : Result A) : M A := fun s => (r, s, []).
Definition emit (e : Effect) : M unit := fun s => (Ok tt, s, [e]).
Definition get : M Self := fun s => (Ok s, s, []).
Definition put (s' : Self) : M unit := fun _ => (Ok tt, s', []).

Declare Scope ecu_scope.
Delimit Scope ecu_scope with ecu.
Notation "x <- m ;; k" := (bind m (fun x => k))
  (at level 61, m at next level, right associativity) : ecu_scope.
Notation "m ;; k" := (bind m (fun _ => k))
  (at level 61, right associativity) : ecu_scope.
Local Open Scope ecu_scope.

Definition send_sf (arb_id : Z) (payload : bytes) : M unit :=
  frame <- lift (make_isotp_single_frame payload) ;;
  emit (BusSend {| arbitration_id := arb_id;
                   is_extended_id := false;
                   data := frame |}).

Definition _send_nrc (sid nrc : Z) : M unit :=
  self <- get ;;
  pl <- lift (bytes_of [0x7F; sid; nrc]) ;;
  send_sf (res_id (cfg self)) pl.

(** Return (sub_wo_bit7, suppress_positive). *)
Definition _sub_spr (sub : Z) : Z * bool :=
  let suppress := negb (Z.land sub 0x80 =? 0) in
  (Z.land sub 0x7F, suppress).

(** Reply [bytes(ints)] on the response id. *)
Definition reply (ints : list Z) : M unit :=
  self <- get ;;
  pl <- lift (bytes_of ints) ;;
  send_sf (res_id (cfg self)) pl.

(** 0x10 DiagnosticSessionControl *)
Definition DiagnosticSessionControl (uds : bytes) : M unit :=
  if len uds <? 2 then _send_nrc 0x10 0x11
  else
    sub <- lift (index uds 1) ;;
    let '(sub_wo, suppress) := _sub_spr sub in
    if (sub_wo =? 0x01) || (sub_wo =? 0x03) then
      (if sub_wo =? 0x03 then
         _send_nrc 0x10 0x78 ;;
         emit (Sleep 150)
       else ret tt) ;;
      (if negb suppress then reply [0x50; sub_wo] else ret tt)
    else _send_nrc 0x10 0x12.

(** 0x11 ECUReset *)
Definition ECUReset (uds : bytes) : M unit :=
  if len uds <? 2 then _send_nrc 0x11 0x11
  else
    sub <- lift (index uds 1) ;;
    let '(sub_wo, suppress) := _sub_spr sub in
    if (sub_wo =? 0x01) || (sub_wo =? 0x03) then
      (if negb suppress then reply [0x51; sub_wo] else ret tt)
    else _send_nrc 0x11 0x12.

(** 0x22 ReadDataByIdentifier *)
Definition ReadDataByIdentifier (uds : bytes) : M unit :=
  if len uds <? 3 then _send_nrc 0x22 0x11
  else
    did_hi <- lift (index uds 1) ;;
    did_lo <- lift (index uds 2) ;;
    self <- get ;;
    match dict_get (did_map self) (did_hi, did_lo) with
    | Some value =>
        if len value <=? 4 then
          hd <- lift (bytes_of [0x62; did_hi; did_lo]) ;;
          send_sf (res_id (cfg self)) (hd ++ value)
        else _send_nrc 0x22 0x31
    | None => _send_nrc 0x22 0x31
    end.

(** 0x27 SecurityAccess (2-byte demo).  [draw] is what
    [random.randint(0, 0xFFFF)] returns if this request calls it. *)
Definition SecurityAccess (draw : Z) (uds : bytes) : M unit :=
  if len uds <? 2 then _send_nrc 0x27 0x11
  else
    sub <- lift (index uds 1) ;;
    if sub =? 0x01 then
      self <- get ;;
      put (set_last_seed (Some draw) self) ;;
      let seed_hi := Z.land (Z.shiftr draw 8) 0xFF in
      let seed_lo := Z.land draw 0xFF in
      reply [0x67; 0x01; seed_hi; seed_lo]
    else if sub =? 0x02 then
      if len uds <? 4 then _send_nrc 0x27 0x11
      else
        k_hi <- lift (index uds 2) ;;
        k_lo <- lift (index uds 3) ;;
        let key := Z.lor (Z.shiftl k_hi 8) k_lo in
        self <- get ;;
        let seed_or_0 :=
          match _last_seed self with
          | Some s => if s =? 0 then 0 else s
          | None => 0
          end in
        let expected := Z.land (seed_or_0 + 1) 0xFFFF in
        if key =? expected then
          put (set_unlocked true self) ;;
          reply [0x67; 0x02]
        else
          put (set_unlocked false self) ;;
          _send_nrc 0x27 0x35
    else _send_nrc 0x27 0x12.

(** 0x19 ReadDTCInformation (sub 0x02, mask read and ignored) *)
Definition ReadDTCInformation (uds : bytes) : M unit :=
  if len uds <? 2 then _send_nrc 0x19 0x11
  else
    sub <- lift (index uds 1) ;;
    if sub =? 0x02 then
      mask <- (if len uds >=? 3 then lift (index uds 2) else ret 0xFF) ;;
      reply [0x59; 0x02; 0x12; 0x34; 0x56; 0x00]
    else _send_nrc 0x19 0x12.

(** 0x31 RoutineControl (StartRoutine 0xFF00) *)
Definition RoutineControl (uds : bytes) : M unit :=
  if len uds <? 2 then _send_nrc 0x31 0x11
  else
    sub <- lift (index uds 1) ;;
    if sub =? 0x01 then
      if len uds <? 4 then _send_nrc 0x31 0x11
      else
        rid_hi <- lift (index uds 2) ;;
        rid_lo <- lift (index uds 3) ;;
        let rid := Z.lor (Z.shiftl rid_hi 8) rid_lo in
        if rid =? 0xFF00 then reply [0x71; 0x01; rid_hi; rid_lo; 0x00]
        else _send_nrc 0x31 0x31
    else _send_nrc 0x31 0x12.

(** 0x3E TesterPresent (support suppress positive) *)
Definition TesterPresent (uds : bytes) : M unit :=
  sub <- (if len uds >=? 2 then lift (index uds 1) else ret 0x00) ;;
  let '(sub_wo, suppress) := _sub_spr sub in
  if negb suppress then reply [0x7E; sub_wo] else ret tt.

(** 0x85 ControlDTCSetting (support suppress positive) *)
Definition ControlDTCSetting (uds : bytes) : M unit :=
  if len uds <? 2 then _send_nrc 0x85 0x11
  else
    sub <- lift (index uds 1) ;;
    let '(sub_wo, suppress) := _sub_spr sub in
    if (sub_wo =? 0x01) || (sub_wo =? 0x02) then
      (if negb suppress then reply [0xC5; sub_wo] else ret tt)
    else _send_nrc 0x85 0x12.

(** The [if sid == ... elif ...] chain of [run], on the decoded request
    [uds] whose first byte is [sid]. *)
Definition dispatch (draw : Z) (uds : bytes) (sid : Z) : M unit :=
  if sid =? 0x10 then DiagnosticSessionControl uds
  else if sid =? 0x11 then ECUReset uds
  else if sid =? 0x22 then ReadDataByIdentifier uds
  else if sid =? 0x27 then SecurityAccess draw uds
  else if sid =? 0x19 then ReadDTCInformation uds
  else if sid =? 0x31 then RoutineControl uds
  else if sid =? 0x3E then TesterPresent uds
  else if sid =? 0x85 then ControlDTCSetting uds
  else _send_nrc sid 0x11.   (* Service not supported *)

(** One pass through the body of the [while self._running] loop of [run]:
    [msg] is what [self.bus.recv(timeout=0.1)] returned.  Every [continue]
    of the source ends the pass. *)
Definition run_once (msg : option Message) (draw : Z) : M unit :=
  self <- get ;;
  match msg with
  | None => ret tt
  | Some msg =>
      if negb (arbitration_id msg =? req_id (cfg self))
         || (len (data msg) =? 0)
      then ret tt
      else
        uds <- lift (parse_isotp_single_frame (data msg)) ;;
        match uds with
        | [] => ret tt
        | _ :: _ =>
            sid <- lift (index uds 0) ;;
            dispatch draw uds sid
        end
  end.

(** [run] while [_running] holds: one pass per bus receive, each paired
    with the random draw available to it. *)
Fixpoint run (inbox : list (option Message * Z)) : M unit :=
  match inbox with
  | [] => ret tt
  | (msg, draw) :: rest => run_once msg draw ;; run rest
  end.

End MiniECUStub.

(** ** Positive and negative replies *)

(** The classification applied to a received payload: a payload that starts
    with 0x7F is a negative reply, any other non-empty payload a positive
    one.  [is_positive_reply] tells whether an effect is the transmission of
    a frame whose decoded payload is positive. *)
Definition is_positive_reply (e : Effect) : bool :=
  match e with
  | BusSend msg =>
      match parse_isotp_single_frame (data msg) with
      | Ok (b :: _) => negb (byte_int b =? 0x7F)
      | _ => false
      end
  | _ => false
  end.

(** A trace with the transmissions of positive replies left out. *)
Definition withhold_positive (tr : list Effect) : list Effect :=
  filter (fun e => negb (is_positive_reply e)) tr.

(** Handler [h] does on request [uds'] what it does on request [uds], minus
    the transmission of positive replies: same outcome, same unit state,
    same other effects in the same order. *)
Definition suppressed_like (h : bytes -> MiniECUStub.M unit)
    (uds uds' : bytes) (self : MiniECUStub.Self) : Prop :=
  h uds' self
  = let '(r, s, tr) := h uds self in (r, s, withhold_positive tr).

(** ** UDS client (Single-Frame) *)

(** The two things [send] does with [time.time()] readings and with its
    timeout: subtract two readings, and compare the difference with the
    timeout.  The source uses floating-point seconds; the client is
    modelled over any representation of time offering these operations. *)
Class Clock (T : Type) : Type := {
  t_sub : T -> T -> T;
  t_lt : T -> T -> bool
}.

(** Integer ticks (say, milliseconds) are one such representation. *)
#[export] Instance Clock_Z : Clock Z := {| t_sub := Z.sub; t_lt := Z.ltb |}.

Definition bytes_eqb (a b : bytes) : bool :=
  if list_eq_dec Byte.byte_eq_dec a b then true else false.

Module UDSClientSF.

Record Self (T : Type) : Type := mkSelf {
  req_id : Z;
  res_id : Z;
  timeout : T;
  show_interim : bool
}.
Arguments mkSelf {T} _ _ _ _.
Arguments req_id {T} _.
Arguments res_id {T} _.
Arguments timeout {T} _.
Arguments show_interim {T} _.

Definition set_ids {T : Type} (self : Self T) (req res : Z) : Self T :=
  {| req_id := req; res_id := res;
     timeout := timeout self; show_interim := show_interim self |}.

(** What the environment answers during one call of [send]:
    [time_time 0] is the reading stored in [start], [time_time (S k)] the
    reading taken by the loop test of pass [k], and [bus_recv k] what
    [self.bus.recv(timeout=0.05)] returns in pass [k] ([None] when the
    poll times out). *)
Record World (T : Type) : Type := mkWorld {
  time_time : nat -> T;
  bus_recv : nat -> option Message
}.
Arguments mkWorld {T} _ _.
Arguments time_time {T} _ _.
Arguments bus_recv {T} _ _.

(** [len(pl) >= 3 and pl[0] == 0x7F and pl[2] == 0x78], evaluated left to
    right with Python's short-circuit [and]. *)
Definition interim (pl : bytes) : Result bool :=
  if len pl >=? 3 then
    match index pl 0 with
    | Raise e => Raise e
    | Ok p0 =>
        if p0 =? 0x7F then
          match index pl 2 with
          | Raise e => Raise e
          | Ok p2 => Ok (p2 =? 0x78)
          end
        else Ok false
    end
  else Ok false.

(** [pl != last_interim], where [last_interim] starts as [None]. *)
Definition differs (pl : bytes) (last_interim : option bytes) : bool :=
  match last_interim with
  | None => true
  | Some prev => negb (bytes_eqb pl prev)
  end.

(** Put effect [e] in front of what the rest of the call does. *)
Definition after (e : Effect) (rest : option (Result bytes * list Effect))
  : option (Result bytes * list Effect) :=
  match rest with
  | None => None
  | Some (r, tr) => Some (r, e :: tr)
  end.

(** The [while time.time() - start < self.timeout] loop of [send], from
    pass [k] on.  [fuel] bounds the number of passes unrolled; [None] means
    the bound was reached with the loop still running.  In [if r and ...] a
    received message is truthy, so the test on [r] is the test for [None]. *)
Fixpoint poll {T : Type} `{Clock T} (self : Self T) (w : World T) (start : T)
    (fuel k : nat) (last_interim : option bytes)
  : option (Result bytes * list Effect) :=
  match fuel with
  | O => None
  | S fuel' =>
      if t_lt (t_sub (time_time w (S k)) start) (timeout self) then
        match bus_recv w k with
        | Some r =>
            if arbitration_id r =? res_id self then
              match parse_isotp_single_frame (data r) with
              | Raise e => Some (Raise e, [])
              | Ok pl =>
                  match interim pl with
                  | Raise e => Some (Raise e, [])
                  | Ok true =>
                      if show_interim self && differs pl last_interim then
                        after (ShowInterim pl)
                              (poll self w start fuel' (S k) (Some pl))
                      else poll self w start fuel' (S k) last_interim
                  | Ok false => Some (Ok pl, [])
                  end
              end
            else poll self w start fuel' (S k) last_interim
        | None => poll self w start fuel' (S k) last_interim
        end
      else Some (Raise TimeoutError, [])
  end.

Definition send {T : Type} `{Clock T} (self : Self T) (w : World T)
    (fuel : nat) (payload : bytes) : option (Result bytes * list Effect) :=
  match make_isotp_single_frame payload with
  | Raise e => Some (Raise e, [])
  | Ok frame =>
      after (BusSend {| arbitration_id := req_id self;
                        is_extended_id := false;
                        data := frame |})
            (poll self w (time_time w 0) fuel 0 None)
  end.

(** What the loop of [send] does not stop at: a poll that returned nothing, a
    frame from another arbitration id, or a frame from the response id whose
    payload is an interim one. *)
Definition passed_over {T : Type} (self : Self T) (r : option Message) : bool :=
  match r with
  | None => true
  | Some m =>
      if arbitration_id m =? res_id self then
        match parse_isotp_single_frame (data m) with
        | Ok pl =>
            match interim pl with
            | Ok true => true
            | _ => false
            end
        | Raise _ => false
        end
      else true
  end.

(** The loop test of pass [k]: [time.time() - start < self.timeout]. *)
Definition in_time {T : Type} `{Clock T} (self : Self T) (w : World T)
    (k : nat) : bool :=
  t_lt (t_sub (time_time w (S k)) (time_time w 0)) (timeout self).

End UDSClientSF.

(** ** Environments for worked examples *)

(** A clock in integer milliseconds that advances by [step] per reading. *)
Definition ticks (step : Z) : nat -> Z := fun k => step * Z.of_nat k.

(** A bus that delivers the scripted polls in order and then stays silent. *)
Definition script (polls : list (option Message)) : nat -> option Message :=
  fun k => nth k polls None.

(** A clock in milliseconds that reads 0 when [start] is taken, 100 at the
    first loop test and 50 more at each later one. *)
Definition late_clock : nat -> Z :=
  fun k => match k with O => 0 | S j => 100 + 50 * Z.of_nat j end.

(** A client on the default ids with a 120 ms timeout. *)
Definition client_120ms : UDSClientSF.Self Z :=
  UDSClientSF.mkSelf 0x7E0 0x7E8 120 true.

(** ** Frames and replies of the stub *)

(** The body [make_isotp_single_frame] returns for [pl]; the empty body
    stands in where the encoder raises. *)
Definition single_frame (pl : bytes) : bytes :=
  match make_isotp_single_frame pl with
  | Ok body => body
  | Raise _ => []
  end.

(** The effect of [send_sf(arb_id, pl)] for a payload that fits. *)
Definition transmit (arb_id : Z) (pl : bytes) : Effect :=
  BusSend {| arbitration_id := arb_id; is_extended_id := false;
             data := single_frame pl |}.

(** The frames put on the bus by a trace, in order. *)
Definition frames_sent (tr : list Effect) : list Message :=
  flat_map (fun e => match e with BusSend m => [m] | _ => [] end) tr.

(** The interim reply of the stub. *)
Definition pending_reply : bytes := [x7f; x10; x78].

(** The byte [bytes([z])] holds, for [z] in [range(256)]. *)
Definition the_byte (z : Z) : byte :=
  match int_byte z with
  | Ok b => b
  | Raise _ => x00
  end.

(** A payload that ends a transaction when received: 2 to 7 bytes, and not
    the response-pending triple. *)
Definition final_reply (pl : bytes) : Prop :=
  (2 <= length pl <= 7)%nat /\ forall b rest, pl <> x7f :: b :: x78 :: rest.

(** The final replies the handlers of the stub build, by service. *)
Inductive stub_final : bytes -> Prop :=
| sf_negative (sid nrc : byte) :
    In nrc [x11; x12; x31; x35] -> stub_final [x7f; sid; nrc]
| sf_session (sub : byte) :
    In sub [x01; x03] -> stub_final [x50; sub]
| sf_reset (sub : byte) :
    In sub [x01; x03] -> stub_final [x51; sub]
| sf_identifier (did_hi did_lo : byte) (value : bytes) :
    (length value <= 4)%nat -> stub_final (x62 :: did_hi :: did_lo :: value)
| sf_seed (seed_hi seed_lo : byte) :
    stub_final [x67; x01; seed_hi; seed_lo]
| sf_key : stub_final [x67; x02]
| sf_dtc : stub_final [x59; x02; x12; x34; x56; x00]
| sf_routine (rid_hi rid_lo : byte) :
    stub_final [x71; x01; rid_hi; rid_lo; x00]
| sf_tester (sub : byte) : stub_final [x7e; sub]
| sf_dtc_setting (sub : byte) :
    In sub [x01; x02] -> stub_final [xc5; sub].

(** The traces one pass of the stub's loop can leave: nothing; one final
    reply (one that satisfies [P]); the pending reply and the 150 ms sleep;
    or those two followed by the final reply [0x50, 0x03]. *)
Inductive pass_shape (P : bytes -> Prop) (res : Z) : list Effect -> Prop :=
| pass_silent : pass_shape P res []
| pass_final (pl : bytes) :
    P pl -> pass_shape P res [transmit res pl]
| pass_pending :
    pass_shape P res [transmit res pending_reply; Sleep 150]
| pass_pending_final :
    pass_shape P res [transmit res pending_reply; Sleep 150;
                      transmit res [x50; x03]].

(** A frame as the stub puts it on the bus: on the response id, standard
    identifier, 8 bytes, and the encoding of a payload of 2 to 7 bytes. *)
Definition well_formed_reply (res : Z) (m : Message) : Prop :=
  arbitration_id m = res /\
  is_extended_id m = false /\
  length (data m) = 8%nat /\
  exists pl, (2 <= length pl <= 7)%nat /\
             make_isotp_single_frame pl = Ok (data m) /\
             parse_isotp_single_frame (data m) = Ok pl.

(** Outcome of a pass: no exception, [cfg] and [did_map] untouched, and a
    trace of one of the four shapes. *)
Definition handled (self : MiniECUStub.Self)
    (out : Result unit * MiniECUStub.Self * list Effect) : Prop :=
  exists self' tr,
    out = (Ok tt, self', tr) /\
    MiniECUStub.cfg self' = MiniECUStub.cfg self /\
    MiniECUStub.did_map self' = MiniECUStub.did_map self /\
    pass_shape stub_final (res_id (MiniECUStub.cfg self)) tr.

(** Outcome of the handler of service [sid]: as above, and the whole state
    is untouched unless the service is SecurityAccess. *)
Definition handled_by (sid : byte) (self : MiniECUStub.Self)
    (out : Result unit * MiniECUStub.Self * list Effect) : Prop :=
  handled self out /\ (sid <> x27 -> snd (fst out) = self).

(** No payload of [shown] equals the one before it, the first one being
    compared with [last] (the value of [last_interim] when the loop is
    entered). *)
Fixpoint no_repeat (last : option bytes) (shown : list bytes) : Prop :=
  match shown with
  | [] => True
  | pl :: rest => last <> Some pl /\ no_repeat (Some pl) rest
  end.

(** [self.cfg.res_id] of the stub. *)
Definition stub_res_id (ecu : MiniECUStub.Self) : Z :=
  res_id (MiniECUStub.cfg ecu).

(** A client on the default ids with the default timeout of 1.5 s, on a
    clock in milliseconds. *)
Definition client_1500ms : UDSClientSF.Self Z :=
  UDSClientSF.mkSelf 0x7E0 0x7E8 1500 true.

(** ** Display: [hexstr] and [explain_response] *)

From Stdlib Require Ascii String.
Import Ascii.AsciiSyntax String.StringSyntax.
Delimit Scope string_scope with string.
Delimit Scope char_scope with char.

(** The digit ["0123456789ABCDEF"[d]]. *)
Definition hex_digit (d : Z) : Ascii.ascii :=
  match d with
  | 0 => "0" | 1 => "1" | 2 => "2" | 3 => "3"
  | 4 => "4" | 5 => "5" | 6 => "6" | 7 => "7"
  | 8 => "8" | 9 => "9" | 10 => "A" | 11 => "B"
  | 12 => "C" | 13 => "D" | 14 => "E" | _ => "F"
  end%char.

(** The upper-case hexadecimal digits of [n >= 0] in front of [acc], most
    significant first, at least one digit; [fuel] bounds their number. *)
Fixpoint hex_digits (fuel : nat) (n : Z) (acc : String.string)
  : String.string :=
  match fuel with
  | O => acc
  | S fuel' =>
      let acc' := String.String (hex_digit (n mod 16)) acc in
      if n <? 16 then acc' else hex_digits fuel' (n / 16) acc'
  end.

(** [s.rjust(width, "0")]. *)
Definition zero_pad (width : nat) (s : String.string) : String.string :=
  String.append
    (String.concat ""%string (repeat "0"%string (width - String.length s))) s.

(** [format(x, "0<width>X")], as in the f-string fields [{x:02X}],
    [{x:04X}] and [{x:06X}]: upper-case hexadecimal, zero-padded to
    [width] characters, the sign of a negative number counted in. *)
Definition format_X (width : nat) (x : Z) : String.string :=
  let digits :=
    hex_digits (S (Z.to_nat (Z.log2 (Z.abs x)))) (Z.abs x) ""%string in
  if x <? 0
  then String.String "-"%char (zero_pad (width - 1) digits)
  else zero_pad width digits.

Definition hexstr (b : bytes) : String.string :=
  String.concat " "%string (map (fun x => format_X 2 (byte_int x)) b).

(** [val.decode("ascii")]: [None] stands for [UnicodeDecodeError], raised
    when a byte is 0x80 or above. *)
Fixpoint decode_ascii (val : bytes) : option String.string :=
  match val with
  | [] => Some ""%string
  | x :: rest =>
      if byte_int x <? 0x80 then
        match decode_ascii rest with
        | Some s => Some (String.String (Ascii.ascii_of_byte x) s)
        | None => None
        end
      else None
  end.

(** [nrc_map.get(nrc, "?")]. *)
Definition nrc_map_get (nrc : Z) : String.string :=
  (if nrc =? 0x11 then "Incorrect length or format"
   else if nrc =? 0x12 then "Sub-function not supported"
   else if nrc =? 0x31 then "Request out of range"
   else if nrc =? 0x35 then "Invalid key"
   else if nrc =? 0x78 then "Response pending"
   else "?")%string.

(** An f-string: its pieces, concatenated. *)
Definition fstr (pieces : list String.string) : String.string :=
  String.concat ""%string pieces.

(** Sequencing of computations that may raise. *)
Definition and_then {A B : Type} (r : Result A) (k : A -> Result B)
  : Result B :=
  match r with
  | Ok a => k a
  | Raise e => Raise e
  end.

(** The tests of [explain_response] from [sid == 0x59] on, and its last
    line. *)
Definition explain_rest (resp : bytes) (sid : Z) : Result String.string :=
  and_then (if (sid =? 0x59) && (len resp >=? 6)
            then and_then (index resp 1) (fun r1 => Ok (r1 =? 0x02))
            else Ok false) (fun is_dtc =>
  if is_dtc then
    and_then (index resp 2) (fun r2 =>
    and_then (index resp 3) (fun r3 =>
    and_then (index resp 4) (fun r4 =>
    let dtc := Z.lor (Z.lor (Z.shiftl r2 16) (Z.shiftl r3 8)) r4 in
    and_then (index resp 5) (fun status =>
    Ok (fstr ["DTC report: 0x"; format_X 6 dtc; ", status=0x";
              format_X 2 status]%string)))))
  else
  and_then (if (sid =? 0x71) && (len resp >=? 5)
            then and_then (index resp 1) (fun r1 => Ok (r1 =? 0x01))
            else Ok false) (fun is_routine =>
  if is_routine then
    and_then (index resp 2) (fun r2 =>
    and_then (index resp 3) (fun r3 =>
    let rid := Z.lor (Z.shiftl r2 8) r3 in
    and_then (index resp 4) (fun status =>
    Ok (fstr ["Routine 0x"; format_X 4 rid; " started, status=0x";
              format_X 2 status]%string))))
  else if (sid =? 0x7E) && (len resp >=? 2) then
    and_then (index resp 1) (fun r1 =>
    Ok (fstr ["TesterPresent OK (sub 0x"; format_X 2 r1; ")"]%string))
  else if (sid =? 0xC5) && (len resp >=? 2) then
    and_then (index resp 1) (fun r1 =>
    Ok (fstr ["ControlDTCSetting OK (sub 0x"; format_X 2 r1; ")"]%string))
  else Ok (fstr ["Positive response: "; hexstr resp]%string))).

Definition explain_response (resp : bytes) : Result String.string :=
  match resp with
  | [] => Ok "Empty response"%string
  | _ :: _ =>
      and_then (index resp 0) (fun sid =>
      if (sid =? 0x7F) && (len resp >=? 3) then
        and_then (index resp 1) (fun r1 =>
        and_then (index resp 2) (fun r2 =>
        Ok (fstr ["Negative(0x"; format_X 2 r1; ") NRC=0x"; format_X 2 r2;
                  " ("; nrc_map_get r2; ")"]%string)))
      else if (sid =? 0x50) && (len resp >=? 2) then
        and_then (index resp 1) (fun r1 =>
        Ok (fstr ["DiagnosticSessionControl OK (sub 0x"; format_X 2 r1;
                  ")"]%string))
      else if (sid =? 0x51) && (len resp >=? 2) then
        and_then (index resp 1) (fun r1 =>
        Ok (fstr ["ECUReset OK (sub 0x"; format_X 2 r1; ")"]%string))
      else if (sid =? 0x62) && (len resp >=? 3) then
        and_then (index resp 1) (fun r1 =>
        and_then (index resp 2) (fun r2 =>
        let did := Z.lor (Z.shiftl r1 8) r2 in
        let val := skipn 3 resp in
        match decode_ascii val with
        | Some text =>
            Ok (fstr ["ReadDID 0x"; format_X 4 did; " OK -> "; hexstr val;
                      " ('"; text; "')"]%string)
        | None =>
            Ok (fstr ["ReadDID 0x"; format_X 4 did; " OK -> ";
                      hexstr val]%string)
        end))
      else if (sid =? 0x67) && (len resp >=? 2) then
        and_then (index resp 1) (fun sub =>
        if (sub =? 0x01) && (len resp >=? 4) then
          and_then (index resp 2) (fun r2 =>
          and_then (index resp 3) (fun r3 =>
          let seed := Z.lor (Z.shiftl r2 8) r3 in
          Ok (fstr ["SecurityAccess Seed: 0x"; format_X 4 seed]%string)))
        else if sub =? 0x02 then Ok "SecurityAccess Key accepted"%string
        else explain_rest resp sid)
      else explain_rest resp sid)
  end.

(** A frame that carries one of the replies the handlers build: the
    pending reply or a final one. *)
Definition known_reply (res : Z) (m : Message) : Prop :=
  exists pl,
    m = {| arbitration_id := res; is_extended_id := false;
           data := single_frame pl |} /\
    (pl = pending_reply \/ stub_final pl).

(** A payload that [explain_response] explains by name: the text is neither
    "Empty response" nor the catch-all "Positive response: ...", and a
    negative reply has a code that [nrc_map] knows. *)
Definition explained_by_name (pl : bytes) : Prop :=
  exists text,
    explain_response pl = Ok text /\
    String.prefix "Positive response" text = false /\
    text <> "Empty response"%string /\
    forall a nrc rest,
      pl = x7f :: a :: nrc :: rest -> nrc_map_get (byte_int nrc) <> "?"%string.

(** * Properties *)

(** ** Bytes and integers *)

Lemma byte_int_range (b : byte) : 0 <= byte_int b <= 255.
Proof.
  unfold byte_int. pose proof (Byte.to_N_bounded b). lia.
Qed.

Lemma int_byte_byte_int (b : byte) : int_byte (byte_int b) = Ok b.
Proof.
  unfold int_byte. pose proof (byte_int_range b) as R.
  replace ((0 <=? byte_int b) && (byte_int b <? 256)) with true
    by (symmetry; apply andb_true_iff; split; [apply Z.leb_le | apply Z.ltb_lt]; lia).
  unfold byte_int. rewrite N2Z.id, Byte.of_to_N. reflexivity.
Qed.

Lemma int_byte_ok (z : Z) :
  0 <= z < 256 -> exists b, int_byte z = Ok b /\ byte_int b = z.
Proof.
  intros R. unfold int_byte.
  replace ((0 <=? z) && (z <? 256)) with true
    by (symmetry; apply andb_true_iff; split; [apply Z.leb_le | apply Z.ltb_lt]; lia).
  destruct (Byte.of_N (Z.to_N z)) as [b|] eqn:E.
  - exists b. split; [reflexivity|].
    apply Byte.to_of_N in E. unfold byte_int. rewrite E. lia.
  - apply Byte.of_N_None_iff in E. lia.
Qed.

Lemma byte_int_inj (a b : byte) : byte_int a = byte_int b -> a = b.
Proof.
  intros E. pose proof (int_byte_byte_int a) as Ha.
  rewrite E, int_byte_byte_int in Ha. congruence.
Qed.

Lemma byte_int_neqb (a b : byte) : a <> b -> (byte_int a =? byte_int b) = false.
Proof.
  intros N. apply Z.eqb_neq. intros E. apply N, byte_int_inj, E.
Qed.

Lemma land_nibble (z : Z) : 0 <= Z.land z 0x0F < 16.
Proof.
  change 0x0F with (Z.ones 4). rewrite Z.land_ones by lia.
  apply Z.mod_pos_bound. lia.
Qed.

Lemma land_nibble_small (z : Z) : 0 <= z < 16 -> Z.land z 0x0F = z.
Proof.
  intros R. change 0x0F with (Z.ones 4). rewrite Z.land_ones by lia.
  apply Z.mod_small. exact R.
Qed.

(** ** Segment codec *)

(** The shape of every body the encoder produces. *)
Lemma make_isotp_single_frame_ok (p : bytes) :
  (length p <= 7)%nat ->
  exists pci, byte_int pci = len p /\
    make_isotp_single_frame p = Ok (pci :: p ++ repeat x00 (7 - length p)).
Proof.
  intros L. unfold make_isotp_single_frame, len.
  replace (Z.of_nat (length p) >? 7) with false
    by (symmetry; rewrite Z.gtb_ltb; apply Z.ltb_ge; lia).
  rewrite land_nibble_small by lia.
  destruct (int_byte_ok (Z.of_nat (length p))) as (pci & E & V); [lia|].
  exists pci. split; [exact V|].
  cbn [bytes_of]. rewrite E. unfold ljust. cbn [app length]. 
  replace (8 - S (length p))%nat with (7 - length p)%nat by lia.
  reflexivity.
Qed.

(** What the decoder returns on a non-empty body. *)
Lemma parse_isotp_single_frame_cons (d0 : byte) (rest : bytes) :
  parse_isotp_single_frame (d0 :: rest)
  = Ok (firstn (Z.to_nat (Z.land (byte_int d0) 0x0F)) rest).
Proof.
  unfold parse_isotp_single_frame, index, slice. cbn [nth_error].
  f_equal. f_equal. lia.
Qed.

(** C1. Round-trip law: for every payload [p] of at most 7 bytes the encoder
    succeeds, and decoding the body it produced returns [p] itself. *)
Theorem isotp_single_frame_roundtrip (p : bytes) :
  (length p <= 7)%nat ->
  exists body,
    make_isotp_single_frame p = Ok body /\
    parse_isotp_single_frame body = Ok p.
Proof.
  intros L. destruct (make_isotp_single_frame_ok p L) as (pci & V & E).
  eexists. split; [exact E|].
  rewrite parse_isotp_single_frame_cons, V.
  rewrite land_nibble_small by (unfold len; lia).
  unfold len. rewrite Nat2Z.id.
  rewrite firstn_app, Nat.sub_diag, firstn_all. cbn [firstn].
  rewrite app_nil_r. reflexivity.
Qed.

Lemma isotp_single_frame_roundtrip_witness :
  exists body,
    make_isotp_single_frame [x22; xf1; x87] = Ok body /\
    parse_isotp_single_frame body = Ok [x22; xf1; x87].
Proof.
  apply (isotp_single_frame_roundtrip [x22; xf1; x87]). simpl. lia.
Defined.

Lemma make_isotp_single_frame_too_long (p : bytes) :
  (7 < length p)%nat -> make_isotp_single_frame p = Raise ValueError.
Proof.
  intros L. unfold make_isotp_single_frame, len.
  replace (Z.of_nat (length p) >? 7) with true
    by (symmetry; rewrite Z.gtb_ltb; apply Z.ltb_lt; lia).
  reflexivity.
Qed.

(** C8. The encoder raises exactly on the payloads longer than 7 bytes, and
    a [send] of such a payload raises the encoder's [ValueError] with an
    empty trace: no frame was put on the bus. *)
Theorem make_isotp_single_frame_fails_iff_too_long (p : bytes) :
  ((exists e, make_isotp_single_frame p = Raise e) <-> (7 < length p)%nat) /\
  (forall (T : Type) (C : Clock T) (self : UDSClientSF.Self T)
          (w : UDSClientSF.World T) (fuel : nat),
      (7 < length p)%nat ->
      UDSClientSF.send self w fuel p = Some (Raise ValueError, [])).
Proof.
  split.
  - split.
    + intros [e E]. destruct (Nat.le_gt_cases (length p) 7) as [L|L]; [|exact L].
      destruct (make_isotp_single_frame_ok p L) as (pci & _ & E').
      rewrite E' in E. discriminate.
    + intros L. exists ValueError. apply make_isotp_single_frame_too_long, L.
  - intros T C self w fuel L. unfold UDSClientSF.send.
    rewrite (make_isotp_single_frame_too_long p L). reflexivity.
Qed.

Lemma make_isotp_single_frame_fails_iff_too_long_witness :
  (exists e, make_isotp_single_frame [x01; x02; x03; x04; x05; x06; x07; x08]
             = Raise e) /\
  UDSClientSF.send (UDSClientSF.mkSelf 0x7E0 0x7E8 1500 true)
    (UDSClientSF.mkWorld (fun k => Z.of_nat k) (fun _ => None)) 4
    [x01; x02; x03; x04; x05; x06; x07; x08]
  = Some (Raise ValueError, []).
Proof.
  pose proof (make_isotp_single_frame_fails_iff_too_long
                [x01; x02; x03; x04; x05; x06; x07; x08]) as [I S].
  split.
  - apply I. simpl. lia.
  - apply S. simpl. lia.
Defined.

(** C10. The decoder never raises: the empty body decodes to the empty
    payload, and a body [d0 :: rest] decodes to the first
    [min n (len(body) - 1)] bytes of [rest], where [n] is the low nibble of
    [d0]: a prefix of the bytes that are there, never padded. *)
Theorem parse_isotp_single_frame_total (body : bytes) :
  exists pl,
    parse_isotp_single_frame body = Ok pl /\
    match body with
    | [] => pl = []
    | d0 :: rest =>
        let n := Z.to_nat (Z.land (byte_int d0) 0x0F) in
        pl = firstn (Nat.min n (length rest)) rest /\
        length pl = Nat.min n (length body - 1)
    end.
Proof.
  destruct body as [|d0 rest].
  - exists []. split; reflexivity.
  - eexists. split; [apply parse_isotp_single_frame_cons|].
    cbv zeta. cbn [length]. rewrite Nat.sub_succ, Nat.sub_0_r. split.
    + destruct (Nat.le_gt_cases (Z.to_nat (Z.land (byte_int d0) 0x0F))
                                (length rest)) as [L|L].
      * rewrite Nat.min_l by exact L. reflexivity.
      * rewrite Nat.min_r by lia. rewrite !firstn_all2 by lia. reflexivity.
    + apply length_firstn.
Qed.

(** ** Unit dispatcher *)

Import MiniECUStub.

(** A negative reply is the triple [0x7F, sid, nrc], sent as one frame on
    the response id. *)
Lemma _send_nrc_bytes (sid nrc : byte) (self : Self) :
  _send_nrc (byte_int sid) (byte_int nrc) self
  = (Ok tt, self,
     [BusSend (mkMessage (res_id (cfg self)) false
                 [x03; x7f; sid; nrc; x00; x00; x00; x00])]).
Proof.
  unfold _send_nrc, bind, get, lift. cbn [bytes_of].
  rewrite !int_byte_byte_int. reflexivity.
Qed.

(** A positive reply of two bytes. *)
Lemma reply_2 (a b : byte) (self : Self) :
  reply [byte_int a; byte_int b] self
  = (Ok tt, self,
     [BusSend (mkMessage (res_id (cfg self)) false
                 [x02; a; b; x00; x00; x00; x00; x00])]).
Proof.
  unfold reply, bind, get, lift. cbn [bytes_of].
  rewrite !int_byte_byte_int. reflexivity.
Qed.

Lemma nonempty_data (m : Message) (b : byte) (rest : bytes) :
  parse_isotp_single_frame (data m) = Ok (b :: rest) ->
  (len (data m) =? 0) = false.
Proof.
  destruct (data m); [discriminate|]. intros _. reflexivity.
Qed.

(** A frame on the request id whose body decodes to a non-empty request
    reaches the service chain, keyed by its first byte. *)
Lemma run_once_request (self : Self) (m : Message) (draw : Z)
    (sid : byte) (rest : bytes) :
  arbitration_id m = req_id (cfg self) ->
  parse_isotp_single_frame (data m) = Ok (sid :: rest) ->
  run_once (Some m) draw self = dispatch draw (sid :: rest) (byte_int sid) self.
Proof.
  intros A P. unfold run_once, bind at 1, get.
  rewrite A, Z.eqb_refl, (nonempty_data _ _ _ P). cbn [negb orb].
  unfold bind at 1, lift at 1. rewrite P.
  unfold bind at 1, lift at 1, index. cbn [nth_error].
  destruct (dispatch draw (sid :: rest) (byte_int sid) self) as [[r s] t].
  reflexivity.
Qed.

(** C7. A request whose service id is none of the eight supported ones is
    answered with the single negative reply [0x7F, sid, 0x11]: the code is
    the incorrect-length/format code 0x11. *)
Theorem unsupported_service_replies_0x11 (self : Self) (m : Message)
    (draw : Z) (sid : byte) (rest : bytes) :
  arbitration_id m = req_id (cfg self) ->
  parse_isotp_single_frame (data m) = Ok (sid :: rest) ->
  ~ In sid [x10; x11; x22; x27; x19; x31; x3e; x85] ->
  run_once (Some m) draw self
  = (Ok tt, self,
     [BusSend (mkMessage (res_id (cfg self)) false
                 [x03; x7f; sid; x11; x00; x00; x00; x00])]).
Proof.
  intros A P N. rewrite (run_once_request _ _ _ _ _ A P). unfold dispatch.
  change 0x10 with (byte_int x10). change 0x11 with (byte_int x11).
  change 0x22 with (byte_int x22). change 0x27 with (byte_int x27).
  change 0x19 with (byte_int x19). change 0x31 with (byte_int x31).
  change 0x3E with (byte_int x3e). change 0x85 with (byte_int x85).
  rewrite !byte_int_neqb by (intros ->; apply N; simpl; tauto).
  apply _send_nrc_bytes.
Qed.

Lemma unsupported_service_replies_0x11_witness :
  run_once
    (Some (mkMessage 0x7E0 false [x02; x2e; xf1; x00; x00; x00; x00; x00]))
    0 (__init__ ECUConfig_default)
  = (Ok tt, __init__ ECUConfig_default,
     [BusSend (mkMessage 0x7E8 false
                 [x03; x7f; x2e; x11; x00; x00; x00; x00])]).
Proof.
  apply (unsupported_service_replies_0x11 (__init__ ECUConfig_default)
           (mkMessage 0x7E0 false [x02; x2e; xf1; x00; x00; x00; x00; x00])
           0 x2e [xf1]).
  - reflexivity.
  - reflexivity.
  - simpl. intros H. repeat (destruct H as [H|H]; [discriminate H|]). exact H.
Defined.

Lemma len_ltb_false (l : bytes) (k : Z) :
  k <= len l -> (len l <? k) = false.
Proof. intros L. apply Z.ltb_ge, L. Qed.

Lemma len_geb_true (l : bytes) (k : Z) :
  k <= len l -> (len l >=? k) = true.
Proof. intros L. rewrite Z.geb_leb. apply Z.leb_le, L. Qed.

Lemma len_cons (b : byte) (l : bytes) : len (b :: l) = 1 + len l.
Proof. unfold len. cbn [length]. lia. Qed.

Lemma len_nonneg (l : bytes) : 0 <= len l.
Proof. unfold len. lia. Qed.

(** Decide a length test of a handler on a request with enough bytes. *)
Ltac long_enough :=
  repeat rewrite len_cons;
  match goal with |- context [len ?l] => pose proof (len_nonneg l) end;
  lia.

(** The two sub-function bytes whose core value (bit 7 masked off) is 3. *)
Lemma core_sub_3 (sub : byte) :
  Z.land (byte_int sub) 0x7F = 3 -> sub = x03 \/ sub = x83.
Proof.
  destruct sub; vm_compute; intros H; try discriminate H; auto.
Qed.

(** C3. A SessionControl request whose core sub-function is 3 makes the
    dispatcher send the interim reply [0x7F, 0x10, 0x78] once, then sleep
    150 ms, and then, unless bit 7 of the sub-function is set, send the
    final reply [0x50, 0x03]; nothing else is sent, and the unit state is
    unchanged. *)
Theorem session_control_extended_pending_then_final (self : Self)
    (m : Message) (draw : Z) (sub : byte) (rest : bytes) :
  arbitration_id m = req_id (cfg self) ->
  parse_isotp_single_frame (data m) = Ok (x10 :: sub :: rest) ->
  Z.land (byte_int sub) 0x7F = 3 ->
  run_once (Some m) draw self
  = (Ok tt, self,
     BusSend (mkMessage (res_id (cfg self)) false
                [x03; x7f; x10; x78; x00; x00; x00; x00])
     :: Sleep 150
     :: (if Z.land (byte_int sub) 0x80 =? 0
         then [BusSend (mkMessage (res_id (cfg self)) false
                          [x02; x50; x03; x00; x00; x00; x00; x00])]
         else [])).
Proof.
  intros A P C. rewrite (run_once_request _ _ _ _ _ A P).
  unfold dispatch. change (byte_int x10 =? 0x10) with true. cbv iota.
  unfold DiagnosticSessionControl.
  rewrite len_ltb_false by long_enough.
  destruct (core_sub_3 sub C) as [-> | ->]; reflexivity.
Qed.

Lemma session_control_extended_pending_then_final_witness :
  run_once
    (Some (mkMessage 0x7E0 false [x02; x10; x03; x00; x00; x00; x00; x00]))
    0 (__init__ ECUConfig_default)
  = (Ok tt, __init__ ECUConfig_default,
     [BusSend (mkMessage 0x7E8 false [x03; x7f; x10; x78; x00; x00; x00; x00]);
      Sleep 150;
      BusSend (mkMessage 0x7E8 false [x02; x50; x03; x00; x00; x00; x00; x00])]).
Proof.
  apply (session_control_extended_pending_then_final
           (__init__ ECUConfig_default)
           (mkMessage 0x7E0 false [x02; x10; x03; x00; x00; x00; x00; x00])
           0 x03 []); reflexivity.
Defined.

(** The key [(k_hi << 8) | k_lo] is the big-endian value of the two bytes. *)
Lemma key_value (h l : Z) :
  0 <= l < 256 -> Z.lor (Z.shiftl h 8) l = 256 * h + l.
Proof.
  intros R.
  assert (D : Z.land (Z.shiftl h 8) l = 0).
  { replace l with (Z.land l (Z.ones 8))
      by (rewrite Z.land_ones by lia; apply Z.mod_small; exact R).
    rewrite (Z.land_comm l), Z.land_assoc, Z.land_ones by lia.
    rewrite Z.shiftl_mul_pow2 by lia.
    rewrite Z.mod_mul by lia. apply Z.land_0_l. }
  rewrite <- Z.lxor_lor by exact D.
  rewrite <- Z.add_nocarry_lxor by exact D.
  rewrite Z.shiftl_mul_pow2 by lia. lia.
Qed.

(** [(self._last_seed or 0)]: a stored seed of 0 and no seed at all both
    give 0. *)
Lemma seed_or_0 (seed : option Z) :
  match seed with Some s => if s =? 0 then 0 else s | None => 0 end
  = match seed with Some s => s | None => 0 end.
Proof.
  destruct seed as [s|]; [|reflexivity].
  destruct (Z.eqb_spec s 0); congruence.
Qed.

(** What a send-key request does, whatever seed is stored. *)
Lemma send_key_outcome (self : Self) (m : Message) (draw : Z)
    (k_hi k_lo : byte) (rest : bytes) :
  arbitration_id m = req_id (cfg self) ->
  parse_isotp_single_frame (data m) = Ok (x27 :: x02 :: k_hi :: k_lo :: rest) ->
  run_once (Some m) draw self
  = if 256 * byte_int k_hi + byte_int k_lo
       =? (match _last_seed self with Some s => s | None => 0 end + 1) mod 65536
    then (Ok tt, set_unlocked true self,
          [BusSend (mkMessage (res_id (cfg self)) false
                      [x02; x67; x02; x00; x00; x00; x00; x00])])
    else (Ok tt, set_unlocked false self,
          [BusSend (mkMessage (res_id (cfg self)) false
                      [x03; x7f; x27; x35; x00; x00; x00; x00])]).
Proof.
  intros A P. rewrite (run_once_request _ _ _ _ _ A P).
  replace (dispatch draw (x27 :: x02 :: k_hi :: k_lo :: rest) (byte_int x27))
    with (SecurityAccess draw (x27 :: x02 :: k_hi :: k_lo :: rest))
    by reflexivity.
  unfold SecurityAccess.
  rewrite len_ltb_false by long_enough.
  unfold bind at 1, lift at 1, index. cbn [nth_error].
  change (byte_int x02 =? 0x01) with false.
  change (byte_int x02 =? 0x02) with true. cbv iota.
  rewrite len_ltb_false by long_enough.
  unfold bind at 1, lift at 1. unfold bind at 1, lift at 1.
  unfold bind at 1, get at 1.
  rewrite key_value by (pose proof (byte_int_range k_lo); lia).
  rewrite seed_or_0.
  change 0xFFFF with (Z.ones 16). rewrite Z.land_ones by lia.
  change (2 ^ 16) with 65536.
  destruct (256 * byte_int k_hi + byte_int k_lo
            =? (match _last_seed self with Some s => s | None => 0 end + 1)
               mod 65536).
  - unfold bind, put. change [0x67; 0x02] with [byte_int x67; byte_int x02].
    rewrite reply_2. reflexivity.
  - unfold bind, put. change 0x27 with (byte_int x27).
    change 0x35 with (byte_int x35).
    rewrite _send_nrc_bytes. reflexivity.
Qed.

(** C5. With seed [s] stored, a send-key request whose two key bytes spell
    [(s + 1) mod 65536] leaves the unit with [unlocked = true] and is
    answered [0x67, 0x02]; any other key leaves it with [unlocked = false]
    and is answered with the invalid-key negative reply
    [0x7F, 0x27, 0x35].  Either way the seed stays stored and nothing else
    changes. *)
Theorem security_access_key_check (self : Self) (m : Message) (draw : Z)
    (s : Z) (k_hi k_lo : byte) (rest : bytes) :
  arbitration_id m = req_id (cfg self) ->
  parse_isotp_single_frame (data m) = Ok (x27 :: x02 :: k_hi :: k_lo :: rest) ->
  _last_seed self = Some s ->
  run_once (Some m) draw self
  = if 256 * byte_int k_hi + byte_int k_lo =? (s + 1) mod 65536
    then (Ok tt,
          {| cfg := cfg self; unlocked := true;
             _last_seed := Some s; did_map := did_map self |},
          [BusSend (mkMessage (res_id (cfg self)) false
                      [x02; x67; x02; x00; x00; x00; x00; x00])])
    else (Ok tt,
          {| cfg := cfg self; unlocked := false;
             _last_seed := Some s; did_map := did_map self |},
          [BusSend (mkMessage (res_id (cfg self)) false
                      [x03; x7f; x27; x35; x00; x00; x00; x00])]).
Proof.
  intros A P S. rewrite (send_key_outcome _ _ _ _ _ _ A P), S.
  unfold set_unlocked. rewrite S. reflexivity.
Qed.

Lemma security_access_key_check_witness :
  let seeded :=
    snd (fst (run_once
                (Some (mkMessage 0x7E0 false
                         [x02; x27; x01; x00; x00; x00; x00; x00]))
                0x1234 (__init__ ECUConfig_default))) in
  _last_seed seeded = Some 0x1234 /\
  unlocked seeded = false /\
  run_once
    (Some (mkMessage 0x7E0 false [x04; x27; x02; x12; x35; x00; x00; x00]))
    0 seeded
  = (Ok tt,
     {| cfg := ECUConfig_default; unlocked := true;
        _last_seed := Some 0x1234;
        did_map := did_map (__init__ ECUConfig_default) |},
     [BusSend (mkMessage 0x7E8 false [x02; x67; x02; x00; x00; x00; x00; x00])])
  /\
  run_once
    (Some (mkMessage 0x7E0 false [x04; x27; x02; x12; x36; x00; x00; x00]))
    0 (set_unlocked true seeded)
  = (Ok tt,
     {| cfg := ECUConfig_default; unlocked := false;
        _last_seed := Some 0x1234;
        did_map := did_map (__init__ ECUConfig_default) |},
     [BusSend (mkMessage 0x7E8 false [x03; x7f; x27; x35; x00; x00; x00; x00])]).
Proof.
  split; [reflexivity|]. split; [reflexivity|]. split.
  - apply (security_access_key_check
             (set_last_seed (Some 0x1234) (__init__ ECUConfig_default))
             (mkMessage 0x7E0 false [x04; x27; x02; x12; x35; x00; x00; x00])
             0 0x1234 x12 x35 []); reflexivity.
  - apply (security_access_key_check
             (set_unlocked true
                (set_last_seed (Some 0x1234) (__init__ ECUConfig_default)))
             (mkMessage 0x7E0 false [x04; x27; x02; x12; x36; x00; x00; x00])
             0 0x1234 x12 x36 []); reflexivity.
Defined.

(** C9. With no seed ever stored, a send-key request is checked against
    [(0 + 1) mod 65536]: the key 0x0001 leaves the unit with
    [unlocked = true], still without a seed, and is answered
    [0x67, 0x02]; any other key leaves it with [unlocked = false]. *)
Theorem security_access_key_without_seed (self : Self) (m : Message)
    (draw : Z) (k_hi k_lo : byte) (rest : bytes) :
  arbitration_id m = req_id (cfg self) ->
  parse_isotp_single_frame (data m) = Ok (x27 :: x02 :: k_hi :: k_lo :: rest) ->
  _last_seed self = None ->
  run_once (Some m) draw self
  = if 256 * byte_int k_hi + byte_int k_lo =? (0 + 1) mod 65536
    then (Ok tt,
          {| cfg := cfg self; unlocked := true;
             _last_seed := None; did_map := did_map self |},
          [BusSend (mkMessage (res_id (cfg self)) false
                      [x02; x67; x02; x00; x00; x00; x00; x00])])
    else (Ok tt,
          {| cfg := cfg self; unlocked := false;
             _last_seed := None; did_map := did_map self |},
          [BusSend (mkMessage (res_id (cfg self)) false
                      [x03; x7f; x27; x35; x00; x00; x00; x00])]).
Proof.
  intros A P S. rewrite (send_key_outcome _ _ _ _ _ _ A P), S.
  unfold set_unlocked. rewrite S. reflexivity.
Qed.

Lemma security_access_key_without_seed_witness :
  unlocked (__init__ ECUConfig_default) = false /\
  run_once
    (Some (mkMessage 0x7E0 false [x04; x27; x02; x00; x01; x00; x00; x00]))
    0 (__init__ ECUConfig_default)
  = (Ok tt,
     {| cfg := ECUConfig_default; unlocked := true;
        _last_seed := None;
        did_map := did_map (__init__ ECUConfig_default) |},
     [BusSend (mkMessage 0x7E8 false [x02; x67; x02; x00; x00; x00; x00; x00])]).
Proof.
  split; [reflexivity|].
  apply (security_access_key_without_seed (__init__ ECUConfig_default)
           (mkMessage 0x7E0 false [x04; x27; x02; x00; x01; x00; x00; x00])
           0 x00 x01 []); reflexivity.
Defined.

(** ** Suppression of the positive reply *)

Lemma bind_lift_Ok {A B : Type} (a : A) (k : A -> M B) (s : Self) :
  bind (lift (Ok a)) k s = k a s.
Proof.
  unfold bind, lift. destruct (k a s) as [[r s2] t2]. reflexivity.
Qed.

Lemma sub_spr_clear (sub : Z) :
  Z.land sub 0x80 = 0 -> _sub_spr sub = (Z.land sub 0x7F, false).
Proof. intros C. unfold _sub_spr. rewrite C. reflexivity. Qed.

Lemma sub_spr_set (sub : Z) :
  _sub_spr (Z.lor sub 0x80) = (Z.land sub 0x7F, true).
Proof.
  unfold _sub_spr. rewrite !Z.land_lor_distr_l.
  change (Z.land 0x80 0x7F) with 0. change (Z.land 0x80 0x80) with 0x80.
  rewrite Z.lor_0_r. f_equal.
  assert (N : Z.lor (Z.land sub 0x80) 0x80 <> 0).
  { intros E. apply Z.lor_eq_0_iff in E. destruct E as [_ E]. discriminate E. }
  apply Z.eqb_neq in N. rewrite N. reflexivity.
Qed.

Lemma core_sub_range (sub : Z) : 0 <= Z.land sub 0x7F < 256.
Proof.
  change 0x7F with (Z.ones 7). rewrite Z.land_ones by lia.
  pose proof (Z.mod_pos_bound sub (2 ^ 7)). lia.
Qed.

Section Suppress.

Variables (sid sub sub' : byte) (rest : bytes) (self : Self).
Hypothesis bit7_clear : Z.land (byte_int sub) 0x80 = 0.
Hypothesis bit7_set : byte_int sub' = Z.lor (byte_int sub) 0x80.

Lemma DiagnosticSessionControl_suppress :
  suppressed_like DiagnosticSessionControl (sid :: sub :: rest) (sid :: sub' :: rest) self.
Proof.
  unfold suppressed_like, DiagnosticSessionControl.
  rewrite !len_ltb_false by long_enough.
  unfold index. cbn [nth_error]. rewrite !bind_lift_Ok.
  rewrite bit7_set, sub_spr_set, (sub_spr_clear _ bit7_clear).
  destruct (Z.land (byte_int sub) 0x7F =? 0x03) eqn:E3.
  - apply Z.eqb_eq in E3. rewrite E3. reflexivity.
  - destruct (Z.land (byte_int sub) 0x7F =? 0x01) eqn:E1.
    + apply Z.eqb_eq in E1. rewrite E1. reflexivity.
    + reflexivity.
Qed.

Lemma ECUReset_suppress :
  suppressed_like ECUReset (sid :: sub :: rest) (sid :: sub' :: rest) self.
Proof.
  unfold suppressed_like, ECUReset.
  rewrite !len_ltb_false by long_enough.
  unfold index. cbn [nth_error]. rewrite !bind_lift_Ok.
  rewrite bit7_set, sub_spr_set, (sub_spr_clear _ bit7_clear).
  destruct (Z.land (byte_int sub) 0x7F =? 0x03) eqn:E3.
  - apply Z.eqb_eq in E3. rewrite E3. reflexivity.
  - destruct (Z.land (byte_int sub) 0x7F =? 0x01) eqn:E1.
    + apply Z.eqb_eq in E1. rewrite E1. reflexivity.
    + reflexivity.
Qed.

Lemma ControlDTCSetting_suppress :
  suppressed_like ControlDTCSetting (sid :: sub :: rest) (sid :: sub' :: rest) self.
Proof.
  unfold suppressed_like, ControlDTCSetting.
  rewrite !len_ltb_false by long_enough.
  unfold index. cbn [nth_error]. rewrite !bind_lift_Ok.
  rewrite bit7_set, sub_spr_set, (sub_spr_clear _ bit7_clear).
  destruct (Z.land (byte_int sub) 0x7F =? 0x02) eqn:E2.
  - apply Z.eqb_eq in E2. rewrite E2. reflexivity.
  - destruct (Z.land (byte_int sub) 0x7F =? 0x01) eqn:E1.
    + apply Z.eqb_eq in E1. rewrite E1. reflexivity.
    + reflexivity.
Qed.

Lemma TesterPresent_suppress :
  suppressed_like TesterPresent (sid :: sub :: rest) (sid :: sub' :: rest) self.
Proof.
  unfold suppressed_like, TesterPresent.
  rewrite !len_geb_true by long_enough.
  unfold index. cbn [nth_error]. rewrite !bind_lift_Ok.
  rewrite bit7_set, sub_spr_set, (sub_spr_clear _ bit7_clear).
  destruct (int_byte_ok _ (core_sub_range (byte_int sub))) as (b & E & _).
  unfold reply, bind, get, lift. cbn [bytes_of negb]. rewrite E. reflexivity.
Qed.

End Suppress.

(** C4. For the four services with a "positive unless suppressed" rule
    (0x10, 0x11, 0x3E, 0x85), setting bit 7 of the sub-function changes
    nothing but the transmission of the positive reply: outcome, unit state
    and every other effect (interim reply, delay, negative reply) are those
    of the request with the bit clear.  In particular SessionControl with
    sub-function 0x83 still sends the interim reply and sleeps 150 ms, and
    TesterPresent with sub-function 0x80 sends nothing. *)
Theorem suppress_bit_only_withholds_positive (self : Self)
    (m m' : Message) (draw : Z) (sid sub sub' : byte) (rest : bytes) :
  In sid [x10; x11; x3e; x85] ->
  arbitration_id m = req_id (cfg self) ->
  arbitration_id m' = req_id (cfg self) ->
  parse_isotp_single_frame (data m) = Ok (sid :: sub :: rest) ->
  parse_isotp_single_frame (data m') = Ok (sid :: sub' :: rest) ->
  Z.land (byte_int sub) 0x80 = 0 ->
  byte_int sub' = Z.lor (byte_int sub) 0x80 ->
  run_once (Some m') draw self
  = (let '(r, s, tr) := run_once (Some m) draw self in
     (r, s, withhold_positive tr))
  /\ (sid = x10 -> sub' = x83 ->
      run_once (Some m') draw self
      = (Ok tt, self,
         [BusSend (mkMessage (res_id (cfg self)) false
                     [x03; x7f; x10; x78; x00; x00; x00; x00]);
          Sleep 150]))
  /\ (sid = x3e -> sub' = x80 ->
      run_once (Some m') draw self = (Ok tt, self, [])).
Proof.
  intros I A A' P P' C S.
  rewrite (run_once_request _ _ _ _ _ A P), (run_once_request _ _ _ _ _ A' P').
  split; [|split].
  - simpl in I. destruct I as [<- | [<- | [<- | [<- | []]]]].
    + apply (DiagnosticSessionControl_suppress x10 sub sub' rest self C S).
    + apply (ECUReset_suppress x11 sub sub' rest self C S).
    + apply (TesterPresent_suppress x3e sub sub' rest self C S).
    + apply (ControlDTCSetting_suppress x85 sub sub' rest self C S).
  - intros -> ->.
    replace (dispatch draw (x10 :: x83 :: rest) (byte_int x10))
      with (DiagnosticSessionControl (x10 :: x83 :: rest)) by reflexivity.
    unfold DiagnosticSessionControl.
    rewrite len_ltb_false by long_enough. reflexivity.
  - intros -> ->.
    replace (dispatch draw (x3e :: x80 :: rest) (byte_int x3e))
      with (TesterPresent (x3e :: x80 :: rest)) by reflexivity.
    unfold TesterPresent.
    rewrite len_geb_true by long_enough. reflexivity.
Qed.

Lemma suppress_bit_only_withholds_positive_witness :
  run_once
    (Some (mkMessage 0x7E0 false [x02; x10; x83; x00; x00; x00; x00; x00]))
    0 (__init__ ECUConfig_default)
  = (Ok tt, __init__ ECUConfig_default,
     withhold_positive
       [BusSend (mkMessage 0x7E8 false [x03; x7f; x10; x78; x00; x00; x00; x00]);
        Sleep 150;
        BusSend (mkMessage 0x7E8 false [x02; x50; x03; x00; x00; x00; x00; x00])])
  /\
  run_once
    (Some (mkMessage 0x7E0 false [x02; x3e; x80; x00; x00; x00; x00; x00]))
    0 (__init__ ECUConfig_default)
  = (Ok tt, __init__ ECUConfig_default, []).
Proof.
  split.
  - apply (suppress_bit_only_withholds_positive (__init__ ECUConfig_default)
             (mkMessage 0x7E0 false [x02; x10; x03; x00; x00; x00; x00; x00])
             (mkMessage 0x7E0 false [x02; x10; x83; x00; x00; x00; x00; x00])
             0 x10 x03 x83 []);
      try reflexivity.
    simpl. tauto.
  - apply (suppress_bit_only_withholds_positive (__init__ ECUConfig_default)
             (mkMessage 0x7E0 false [x02; x3e; x00; x00; x00; x00; x00; x00])
             (mkMessage 0x7E0 false [x02; x3e; x80; x00; x00; x00; x00; x00])
             0 x3e x00 x80 []);
      try reflexivity.
    simpl. tauto.
Defined.

(** * Further properties of the code *)

(** ** Segment codec, continued *)

(** X1. Layout of an encoded frame: 8 bytes; the first is the payload
    length (high nibble 0), then the payload, then zero padding. *)
Theorem make_isotp_single_frame_layout (p : bytes) :
  (length p <= 7)%nat ->
  exists pci body,
    make_isotp_single_frame p = Ok body /\
    body = pci :: p ++ repeat x00 (7 - length p) /\
    byte_int pci = len p /\
    length body = 8%nat.
Proof.
  intros L. destruct (make_isotp_single_frame_ok p L) as (pci & V & E).
  exists pci, (pci :: p ++ repeat x00 (7 - length p)).
  repeat split; try assumption.
  cbn [length]. rewrite length_app, repeat_length. lia.
Qed.

Lemma make_isotp_single_frame_layout_witness :
  exists pci body,
    make_isotp_single_frame [x3e; x00] = Ok body /\
    body = pci :: [x3e; x00] ++ repeat x00 (7 - 2) /\
    byte_int pci = 2 /\
    length body = 8%nat.
Proof.
  apply (make_isotp_single_frame_layout [x3e; x00]). simpl. lia.
Defined.

(** Decoding what the encoder produced. *)
Lemma parse_after_make (p body : bytes) :
  make_isotp_single_frame p = Ok body ->
  parse_isotp_single_frame body = Ok p.
Proof.
  intros E. destruct (Nat.le_gt_cases (length p) 7) as [L|L].
  - destruct (make_isotp_single_frame_ok p L) as (pci & V & E').
    rewrite E' in E. injection E as <-.
    rewrite parse_isotp_single_frame_cons, V.
    rewrite land_nibble_small by (unfold len; lia).
    unfold len. rewrite Nat2Z.id.
    rewrite firstn_app, Nat.sub_diag, firstn_all. cbn [firstn].
    apply f_equal, app_nil_r.
  - rewrite (make_isotp_single_frame_too_long p L) in E. discriminate E.
Qed.

(** X2. The encoder is injective: two payloads with the same encoded body
    are the same payload. *)
Theorem make_isotp_single_frame_injective (p q body : bytes) :
  make_isotp_single_frame p = Ok body ->
  make_isotp_single_frame q = Ok body ->
  p = q.
Proof.
  intros Ep Eq. apply parse_after_make in Ep, Eq.
  rewrite Ep in Eq. injection Eq as ->. reflexivity.
Qed.

Lemma make_isotp_single_frame_injective_witness :
  [x10; x01] = [x10; x01].
Proof.
  apply (make_isotp_single_frame_injective [x10; x01] [x10; x01]
           [x02; x10; x01; x00; x00; x00; x00; x00]); reflexivity.
Defined.

(** X3. The decoder looks at the low nibble of the first byte and at the
    bytes that nibble counts, and at nothing else: the high nibble (the
    ISO-TP frame type) and whatever follows the counted bytes do not
    matter. *)
Theorem parse_isotp_single_frame_reads_low_nibble_only
    (d0 d0' : byte) (rest rest' : bytes) :
  Z.land (byte_int d0) 0x0F = Z.land (byte_int d0') 0x0F ->
  firstn (Z.to_nat (Z.land (byte_int d0) 0x0F)) rest
  = firstn (Z.to_nat (Z.land (byte_int d0) 0x0F)) rest' ->
  parse_isotp_single_frame (d0 :: rest)
  = parse_isotp_single_frame (d0' :: rest').
Proof.
  intros N F. rewrite !parse_isotp_single_frame_cons, <- N, F. reflexivity.
Qed.

Lemma parse_isotp_single_frame_reads_low_nibble_only_witness :
  parse_isotp_single_frame [x02; x3e; x00; x00; x00; x00; x00; x00]
  = parse_isotp_single_frame [x22; x3e; x00; xaa; xbb].
Proof.
  apply (parse_isotp_single_frame_reads_low_nibble_only
           x02 x22 [x3e; x00; x00; x00; x00; x00; x00] [x3e; x00; xaa; xbb]);
    reflexivity.
Defined.

(** X4. Whatever an 8-byte (or shorter) body holds, the payload decoded from
    it has at most 7 bytes, so it can be encoded again, and the re-encoded
    body decodes to the same payload. *)
Theorem parse_then_make_succeeds (body : bytes) :
  (length body <= 8)%nat ->
  exists pl body',
    parse_isotp_single_frame body = Ok pl /\
    (length pl <= 7)%nat /\
    make_isotp_single_frame pl = Ok body' /\
    parse_isotp_single_frame body' = Ok pl.
Proof.
  intros L.
  assert (H : exists pl, parse_isotp_single_frame body = Ok pl /\
                         (length pl <= 7)%nat).
  { destruct body as [|d0 rest].
    - exists []. split; [reflexivity | simpl; lia].
    - eexists. split; [apply parse_isotp_single_frame_cons|].
      rewrite length_firstn. cbn [length] in L. lia. }
  destruct H as (pl & P & L7).
  destruct (make_isotp_single_frame_ok pl L7) as (pci & _ & E).
  exists pl, (pci :: pl ++ repeat x00 (7 - length pl)).
  repeat split; try assumption. apply parse_after_make, E.
Qed.

Lemma parse_then_make_succeeds_witness :
  exists pl body',
    parse_isotp_single_frame [x2f; x01; x02; x03; x04; x05; x06; x07] = Ok pl /\
    (length pl <= 7)%nat /\
    make_isotp_single_frame pl = Ok body' /\
    parse_isotp_single_frame body' = Ok pl.
Proof.
  apply (parse_then_make_succeeds [x2f; x01; x02; x03; x04; x05; x06; x07]).
  simpl. lia.
Defined.

(** ** Monad steps *)

Lemma bind_get {B : Type} (k : Self -> M B) (s : Self) :
  bind get k s = k s s.
Proof.
  unfold bind, get. destruct (k s s) as [[r s2] t2]. reflexivity.
Qed.

Lemma bind_put {B : Type} (s' : Self) (k : unit -> M B) (s : Self) :
  bind (put s') k s = k tt s'.
Proof.
  unfold bind, put. destruct (k tt s') as [[r s2] t2]. reflexivity.
Qed.

Lemma bind_ret {A B : Type} (a : A) (k : A -> M B) (s : Self) :
  bind (ret a) k s = k a s.
Proof.
  unfold bind, ret. destruct (k a s) as [[r s2] t2]. reflexivity.
Qed.

Lemma bytes_of_map (bs : bytes) : bytes_of (map byte_int bs) = Ok bs.
Proof.
  induction bs as [|b bs IH]; [reflexivity|].
  cbn [map bytes_of]. rewrite int_byte_byte_int, IH. reflexivity.
Qed.

Lemma single_frame_eq (pl : bytes) :
  (length pl <= 7)%nat -> make_isotp_single_frame pl = Ok (single_frame pl).
Proof.
  intros L. unfold single_frame.
  destruct (make_isotp_single_frame_ok pl L) as (pci & _ & E).
  rewrite E. reflexivity.
Qed.

Lemma send_sf_fits (arb_id : Z) (pl : bytes) (self : Self) :
  (length pl <= 7)%nat ->
  send_sf arb_id pl self = (Ok tt, self, [transmit arb_id pl]).
Proof.
  intros L. unfold send_sf, bind, lift, emit, transmit.
  rewrite (single_frame_eq pl L). reflexivity.
Qed.

Lemma reply_bytes (bs : bytes) (self : Self) :
  (length bs <= 7)%nat ->
  reply (map byte_int bs) self
  = (Ok tt, self, [transmit (res_id (cfg self)) bs]).
Proof.
  intros L. unfold reply. rewrite bind_get. rewrite bytes_of_map.
  rewrite bind_lift_Ok. apply send_sf_fits, L.
Qed.

Lemma send_nrc_eq (sid nrc : byte) (self : Self) :
  _send_nrc (byte_int sid) (byte_int nrc) self
  = (Ok tt, self, [transmit (res_id (cfg self)) [x7f; sid; nrc]]).
Proof. apply _send_nrc_bytes. Qed.

(** ** The service handlers, one by one *)

Lemma len_ltb_true_1 (b : byte) (k : Z) : 2 <= k -> (len [b] <? k) = true.
Proof. intros L. apply Z.ltb_lt. unfold len. cbn [length]. lia. Qed.

(** Either bit 7 of a sub-function byte is clear or it is set. *)
Lemma sub_spr_eq (sub : Z) :
  _sub_spr sub = (Z.land sub 0x7F, negb (Z.land sub 0x80 =? 0)).
Proof. reflexivity. Qed.

Lemma DiagnosticSessionControl_eq (sid sub : byte) (rest : bytes)
    (self : MiniECUStub.Self) :
  DiagnosticSessionControl (sid :: sub :: rest) self
  = (Ok tt, self,
     let sub_wo := Z.land (byte_int sub) 0x7F in
     let suppress := negb (Z.land (byte_int sub) 0x80 =? 0) in
     if sub_wo =? 0x03 then
       transmit (res_id (cfg self)) pending_reply :: Sleep 150
       :: (if suppress then [] else [transmit (res_id (cfg self)) [x50; x03]])
     else if sub_wo =? 0x01 then
       (if suppress then [] else [transmit (res_id (cfg self)) [x50; x01]])
     else [transmit (res_id (cfg self)) [x7f; x10; x12]]).
Proof.
  unfold DiagnosticSessionControl.
  rewrite len_ltb_false by long_enough.
  unfold index. cbn [nth_error]. rewrite bind_lift_Ok, sub_spr_eq. cbv zeta.
  destruct (Z.land (byte_int sub) 0x80 =? 0);
    destruct (Z.land (byte_int sub) 0x7F =? 0x03) eqn:E3.
  - apply Z.eqb_eq in E3. rewrite E3. reflexivity.
  - destruct (Z.land (byte_int sub) 0x7F =? 0x01) eqn:E1.
    + apply Z.eqb_eq in E1. rewrite E1. reflexivity.
    + reflexivity.
  - apply Z.eqb_eq in E3. rewrite E3. reflexivity.
  - destruct (Z.land (byte_int sub) 0x7F =? 0x01) eqn:E1.
    + apply Z.eqb_eq in E1. rewrite E1. reflexivity.
    + reflexivity.
Qed.

Lemma the_byte_ok (z : Z) :
  0 <= z < 256 -> int_byte z = Ok (the_byte z) /\ byte_int (the_byte z) = z.
Proof.
  intros R. unfold the_byte.
  destruct (int_byte_ok z R) as (b & E & V). rewrite E. auto.
Qed.

Lemma land_ff_range (z : Z) : 0 <= Z.land z 0xFF < 256.
Proof.
  change 0xFF with (Z.ones 8). rewrite Z.land_ones by lia.
  apply Z.mod_pos_bound. lia.
Qed.

(** [sub & 0x7F] as a byte. *)
Lemma core_sub_byte (sub : byte) :
  int_byte (Z.land (byte_int sub) 0x7F)
  = Ok (the_byte (Z.land (byte_int sub) 0x7F)).
Proof. apply the_byte_ok, core_sub_range. Qed.

Lemma ECUReset_eq (sid sub : byte) (rest : bytes) (self : MiniECUStub.Self) :
  ECUReset (sid :: sub :: rest) self
  = (Ok tt, self,
     let sub_wo := Z.land (byte_int sub) 0x7F in
     let suppress := negb (Z.land (byte_int sub) 0x80 =? 0) in
     if sub_wo =? 0x01 then
       (if suppress then [] else [transmit (res_id (cfg self)) [x51; x01]])
     else if sub_wo =? 0x03 then
       (if suppress then [] else [transmit (res_id (cfg self)) [x51; x03]])
     else [transmit (res_id (cfg self)) [x7f; x11; x12]]).
Proof.
  unfold ECUReset.
  rewrite len_ltb_false by long_enough.
  unfold index. cbn [nth_error]. rewrite bind_lift_Ok, sub_spr_eq. cbv zeta.
  destruct (Z.land (byte_int sub) 0x80 =? 0);
    destruct (Z.land (byte_int sub) 0x7F =? 0x01) eqn:E1;
    try (apply Z.eqb_eq in E1; rewrite E1; reflexivity);
    destruct (Z.land (byte_int sub) 0x7F =? 0x03) eqn:E3;
    try (apply Z.eqb_eq in E3; rewrite E3; reflexivity);
    reflexivity.
Qed.

Lemma ControlDTCSetting_eq (sid sub : byte) (rest : bytes)
    (self : MiniECUStub.Self) :
  ControlDTCSetting (sid :: sub :: rest) self
  = (Ok tt, self,
     let sub_wo := Z.land (byte_int sub) 0x7F in
     let suppress := negb (Z.land (byte_int sub) 0x80 =? 0) in
     if sub_wo =? 0x01 then
       (if suppress then [] else [transmit (res_id (cfg self)) [xc5; x01]])
     else if sub_wo =? 0x02 then
       (if suppress then [] else [transmit (res_id (cfg self)) [xc5; x02]])
     else [transmit (res_id (cfg self)) [x7f; x85; x12]]).
Proof.
  unfold ControlDTCSetting.
  rewrite len_ltb_false by long_enough.
  unfold index. cbn [nth_error]. rewrite bind_lift_Ok, sub_spr_eq. cbv zeta.
  destruct (Z.land (byte_int sub) 0x80 =? 0);
    destruct (Z.land (byte_int sub) 0x7F =? 0x01) eqn:E1;
    try (apply Z.eqb_eq in E1; rewrite E1; reflexivity);
    destruct (Z.land (byte_int sub) 0x7F =? 0x02) eqn:E2;
    try (apply Z.eqb_eq in E2; rewrite E2; reflexivity);
    reflexivity.
Qed.

Lemma TesterPresent_eq (sid sub : byte) (rest : bytes)
    (self : MiniECUStub.Self) :
  TesterPresent (sid :: sub :: rest) self
  = (Ok tt, self,
     if Z.land (byte_int sub) 0x80 =? 0
     then [transmit (res_id (cfg self))
             [x7e; the_byte (Z.land (byte_int sub) 0x7F)]]
     else []).
Proof.
  unfold TesterPresent.
  rewrite len_geb_true by long_enough.
  unfold index. cbn [nth_error]. rewrite bind_lift_Ok, sub_spr_eq.
  destruct (Z.land (byte_int sub) 0x80 =? 0); [|reflexivity].
  cbn [negb].
  destruct (the_byte_ok _ (core_sub_range (byte_int sub))) as [_ V].
  rewrite <- V at 1.
  apply (reply_bytes [x7e; the_byte (Z.land (byte_int sub) 0x7F)]).
  simpl. lia.
Qed.

Lemma ReadDataByIdentifier_eq (sid did_hi did_lo : byte) (rest : bytes)
    (self : MiniECUStub.Self) :
  ReadDataByIdentifier (sid :: did_hi :: did_lo :: rest) self
  = (Ok tt, self,
     match dict_get (did_map self) (byte_int did_hi, byte_int did_lo) with
     | Some value =>
         if len value <=? 4
         then [transmit (res_id (cfg self)) (x62 :: did_hi :: did_lo :: value)]
         else [transmit (res_id (cfg self)) [x7f; x22; x31]]
     | None => [transmit (res_id (cfg self)) [x7f; x22; x31]]
     end).
Proof.
  unfold ReadDataByIdentifier.
  rewrite len_ltb_false by long_enough.
  unfold index. cbn [nth_error]. rewrite !bind_lift_Ok, bind_get.
  destruct (dict_get (did_map self) (byte_int did_hi, byte_int did_lo))
    as [value|]; [|reflexivity].
  destruct (len value <=? 4) eqn:L; [|reflexivity].
  change [0x62; byte_int did_hi; byte_int did_lo]
    with (map byte_int [x62; did_hi; did_lo]).
  rewrite bytes_of_map, bind_lift_Ok.
  apply send_sf_fits. apply Z.leb_le in L. unfold len in L.
  cbn [app length]. lia.
Qed.

Lemma SecurityAccess_seed_eq (draw : Z) (sid : byte) (rest : bytes)
    (self : MiniECUStub.Self) :
  SecurityAccess draw (sid :: x01 :: rest) self
  = (Ok tt, set_last_seed (Some draw) self,
     [transmit (res_id (cfg self))
        [x67; x01; the_byte (Z.land (Z.shiftr draw 8) 0xFF);
                   the_byte (Z.land draw 0xFF)]]).
Proof.
  unfold SecurityAccess.
  rewrite len_ltb_false by long_enough.
  unfold index. cbn [nth_error]. rewrite bind_lift_Ok.
  change (byte_int x01 =? 0x01) with true. cbv iota.
  rewrite bind_get, bind_put.
  destruct (the_byte_ok _ (land_ff_range (Z.shiftr draw 8))) as [_ Vh].
  destruct (the_byte_ok _ (land_ff_range draw)) as [_ Vl].
  rewrite <- Vh at 1. rewrite <- Vl at 1.
  refine (reply_bytes [x67; x01; the_byte (Z.land (Z.shiftr draw 8) 0xFF);
                       the_byte (Z.land draw 0xFF)]
                      (set_last_seed (Some draw) self) _).
  simpl. lia.
Qed.

Lemma SecurityAccess_key_eq (draw : Z) (sid k_hi k_lo : byte) (rest : bytes)
    (self : MiniECUStub.Self) :
  SecurityAccess draw (sid :: x02 :: k_hi :: k_lo :: rest) self
  = if 256 * byte_int k_hi + byte_int k_lo
       =? (match _last_seed self with Some s => s | None => 0 end + 1) mod 65536
    then (Ok tt, set_unlocked true self,
          [transmit (res_id (cfg self)) [x67; x02]])
    else (Ok tt, set_unlocked false self,
          [transmit (res_id (cfg self)) [x7f; x27; x35]]).
Proof.
  unfold SecurityAccess.
  rewrite len_ltb_false by long_enough.
  unfold index. cbn [nth_error]. rewrite bind_lift_Ok.
  change (byte_int x02 =? 0x01) with false.
  change (byte_int x02 =? 0x02) with true. cbv iota.
  rewrite len_ltb_false by long_enough.
  rewrite !bind_lift_Ok, bind_get.
  rewrite key_value by (pose proof (byte_int_range k_lo); lia).
  rewrite seed_or_0.
  change 0xFFFF with (Z.ones 16). rewrite Z.land_ones by lia.
  change (2 ^ 16) with 65536.
  destruct (256 * byte_int k_hi + byte_int k_lo
            =? (match _last_seed self with Some s => s | None => 0 end + 1)
               mod 65536);
    rewrite bind_put; reflexivity.
Qed.

Lemma SecurityAccess_other_eq (draw : Z) (sid sub : byte) (rest : bytes)
    (self : MiniECUStub.Self) :
  sub <> x01 -> sub <> x02 ->
  SecurityAccess draw (sid :: sub :: rest) self
  = (Ok tt, self, [transmit (res_id (cfg self)) [x7f; x27; x12]]).
Proof.
  intros N1 N2. unfold SecurityAccess.
  rewrite len_ltb_false by long_enough.
  unfold index. cbn [nth_error]. rewrite bind_lift_Ok.
  change 0x01 with (byte_int x01). change 0x02 with (byte_int x02).
  rewrite !byte_int_neqb by assumption. reflexivity.
Qed.

Lemma ReadDTCInformation_eq (sid sub : byte) (rest : bytes)
    (self : MiniECUStub.Self) :
  ReadDTCInformation (sid :: sub :: rest) self
  = (Ok tt, self,
     if byte_int sub =? 0x02
     then [transmit (res_id (cfg self)) [x59; x02; x12; x34; x56; x00]]
     else [transmit (res_id (cfg self)) [x7f; x19; x12]]).
Proof.
  unfold ReadDTCInformation.
  rewrite len_ltb_false by long_enough.
  unfold index. cbn [nth_error]. rewrite bind_lift_Ok.
  destruct (byte_int sub =? 0x02); [|reflexivity].
  destruct rest as [|mask rest].
  - reflexivity.
  - rewrite len_geb_true by long_enough. cbn [nth_error].
    rewrite bind_lift_Ok. reflexivity.
Qed.

Lemma RoutineControl_start_eq (sid rid_hi rid_lo : byte) (rest : bytes)
    (self : MiniECUStub.Self) :
  RoutineControl (sid :: x01 :: rid_hi :: rid_lo :: rest) self
  = (Ok tt, self,
     if 256 * byte_int rid_hi + byte_int rid_lo =? 0xFF00
     then [transmit (res_id (cfg self)) [x71; x01; rid_hi; rid_lo; x00]]
     else [transmit (res_id (cfg self)) [x7f; x31; x31]]).
Proof.
  unfold RoutineControl.
  rewrite len_ltb_false by long_enough.
  unfold index. cbn [nth_error]. rewrite bind_lift_Ok.
  change (byte_int x01 =? 0x01) with true. cbv iota.
  rewrite len_ltb_false by long_enough.
  rewrite !bind_lift_Ok.
  rewrite key_value by (pose proof (byte_int_range rid_lo); lia).
  destruct (256 * byte_int rid_hi + byte_int rid_lo =? 0xFF00); [|reflexivity].
  apply (reply_bytes [x71; x01; rid_hi; rid_lo; x00]). simpl. lia.
Qed.

Lemma RoutineControl_other_eq (sid sub : byte) (rest : bytes)
    (self : MiniECUStub.Self) :
  sub <> x01 ->
  RoutineControl (sid :: sub :: rest) self
  = (Ok tt, self, [transmit (res_id (cfg self)) [x7f; x31; x12]]).
Proof.
  intros N1. unfold RoutineControl.
  rewrite len_ltb_false by long_enough.
  unfold index. cbn [nth_error]. rewrite bind_lift_Ok.
  change 0x01 with (byte_int x01).
  rewrite byte_int_neqb by assumption. reflexivity.
Qed.

Lemma TesterPresent_bare_eq (sid : byte) (self : MiniECUStub.Self) :
  TesterPresent [sid] self
  = (Ok tt, self, [transmit (res_id (cfg self)) [x7e; x00]]).
Proof. reflexivity. Qed.

(** ** What a pass can leave behind *)

Ltac final_reply_solved :=
  split; [cbn [length]; lia | intros ? ? ?; congruence].

Lemma stub_final_final_reply (pl : bytes) : stub_final pl -> final_reply pl.
Proof.
  intros [sid nrc I | | | hi lo v L | | | | | | ]; try final_reply_solved.
  split; [cbn [length]; lia|]. intros b rest E. injection E as _ -> _.
  cbn [In] in I. destruct I as [I | [I | [I | [I | []]]]]; discriminate I.
Qed.

Lemma pass_shape_weaken (P Q : bytes -> Prop) (res : Z) (tr : list Effect) :
  (forall pl, P pl -> Q pl) -> pass_shape P res tr -> pass_shape Q res tr.
Proof. intros W [ | pl H | | ]; constructor. apply W, H. Qed.

Create HintDb stub.
#[local] Hint Constructors pass_shape stub_final : stub.
#[local] Hint Extern 1 (In _ _) => (simpl; tauto) : stub.

Lemma handled_same (self : MiniECUStub.Self) (tr : list Effect) :
  pass_shape stub_final (res_id (cfg self)) tr ->
  handled self (Ok tt, self, tr).
Proof. intros S. exists self, tr. auto. Qed.

Lemma handled_by_same (sid : byte) (self : MiniECUStub.Self)
    (tr : list Effect) :
  pass_shape stub_final (res_id (cfg self)) tr ->
  handled_by sid self (Ok tt, self, tr).
Proof. intros S. split; [apply handled_same, S | reflexivity]. Qed.

(** A request too short for its handler: the handler evaluates to the
    single negative reply [pl]. *)
Ltac short_request sid self pl :=
  refine (handled_by_same sid self [transmit (res_id (cfg self)) pl] _);
  auto with stub.

Lemma dispatch_handled (draw : Z) (sid : byte) (rest : bytes)
    (self : MiniECUStub.Self) :
  handled_by sid self (dispatch draw (sid :: rest) (byte_int sid) self).
Proof.
  unfold dispatch.
  destruct (Z.eqb_spec (byte_int sid) 0x10) as [E|_]; cbv iota.
  { destruct rest as [|sub rest]; [short_request sid self [x7f; x10; x11]|].
    rewrite DiagnosticSessionControl_eq. apply handled_by_same. cbv zeta.
    repeat match goal with |- context [if ?c then _ else _] => destruct c end;
      auto with stub. }
  destruct (Z.eqb_spec (byte_int sid) 0x11) as [E|_]; cbv iota.
  { destruct rest as [|sub rest]; [short_request sid self [x7f; x11; x11]|].
    rewrite ECUReset_eq. apply handled_by_same. cbv zeta.
    repeat match goal with |- context [if ?c then _ else _] => destruct c end;
      auto with stub. }
  destruct (Z.eqb_spec (byte_int sid) 0x22) as [E|_]; cbv iota.
  { destruct rest as [|hi [|lo rest]];
      [short_request sid self [x7f; x22; x11] ..|].
    rewrite ReadDataByIdentifier_eq. apply handled_by_same.
    destruct (dict_get _ _) as [value|]; [|auto with stub].
    destruct (len value <=? 4) eqn:L; [|auto with stub].
    apply pass_final, sf_identifier. apply Z.leb_le in L. unfold len in L.
    lia. }
  destruct (Z.eqb_spec (byte_int sid) 0x27) as [E|_]; cbv iota.
  { assert (S27 : sid = x27) by (apply byte_int_inj, E).
    split; [|intros N; contradiction].
    destruct rest as [|sub rest];
      [refine (handled_same self [transmit (res_id (cfg self)) [x7f; x27; x11]] _);
       auto with stub|].
    destruct (Byte.byte_eq_dec sub x01) as [->|N1].
    { rewrite SecurityAccess_seed_eq.
      exists (set_last_seed (Some draw) self). eexists.
      repeat split; auto with stub. }
    destruct (Byte.byte_eq_dec sub x02) as [->|N2].
    { destruct rest as [|k_hi [|k_lo rest]];
        [refine (handled_same self
                   [transmit (res_id (cfg self)) [x7f; x27; x11]] _);
         auto with stub ..|].
      rewrite SecurityAccess_key_eq.
      destruct (_ =? _); eexists; eexists; repeat split; auto with stub. }
    rewrite SecurityAccess_other_eq by assumption.
    apply handled_same. auto with stub. }
  destruct (Z.eqb_spec (byte_int sid) 0x19) as [E|_]; cbv iota.
  { destruct rest as [|sub rest]; [short_request sid self [x7f; x19; x11]|].
    rewrite ReadDTCInformation_eq. apply handled_by_same.
    destruct (_ =? _); auto with stub. }
  destruct (Z.eqb_spec (byte_int sid) 0x31) as [E|_]; cbv iota.
  { destruct rest as [|sub rest]; [short_request sid self [x7f; x31; x11]|].
    destruct (Byte.byte_eq_dec sub x01) as [->|N1].
    { destruct rest as [|r_hi [|r_lo rest]];
        [short_request sid self [x7f; x31; x11] ..|].
      rewrite RoutineControl_start_eq. apply handled_by_same.
      destruct (_ =? _); auto with stub. }
    rewrite RoutineControl_other_eq by assumption.
    apply handled_by_same. auto with stub. }
  destruct (Z.eqb_spec (byte_int sid) 0x3E) as [E|_]; cbv iota.
  { destruct rest as [|sub rest].
    - rewrite TesterPresent_bare_eq. apply handled_by_same. auto with stub.
    - rewrite TesterPresent_eq. apply handled_by_same.
      destruct (_ =? _); auto with stub. }
  destruct (Z.eqb_spec (byte_int sid) 0x85) as [E|_]; cbv iota.
  { destruct rest as [|sub rest]; [short_request sid self [x7f; x85; x11]|].
    rewrite ControlDTCSetting_eq. apply handled_by_same. cbv zeta.
    repeat match goal with |- context [if ?c then _ else _] => destruct c end;
      auto with stub. }
  change 0x11 with (byte_int x11). rewrite send_nrc_eq.
  apply handled_by_same. auto with stub.
Qed.

(** What a frame does to one pass of the loop: either it reaches the service
    chain as request [sid :: rest], or the pass does nothing. *)
Lemma run_once_cases (msg : option Message) (draw : Z)
    (self : MiniECUStub.Self) :
  run_once msg draw self = (Ok tt, self, []) \/
  exists m sid rest,
    msg = Some m /\
    arbitration_id m = req_id (cfg self) /\
    parse_isotp_single_frame (data m) = Ok (sid :: rest) /\
    run_once msg draw self
    = dispatch draw (sid :: rest) (byte_int sid) self.
Proof.
  destruct msg as [m|]; [|left; reflexivity].
  destruct (Z.eqb_spec (arbitration_id m) (req_id (cfg self))) as [A|N].
  - destruct (parse_isotp_single_frame (data m)) as [[|sid rest]|e] eqn:P.
    + left. unfold run_once. rewrite bind_get, A, Z.eqb_refl. cbn [negb orb].
      destruct (len (data m) =? 0); [reflexivity|].
      rewrite P, bind_lift_Ok. reflexivity.
    + right. exists m, sid, rest. repeat split; try assumption.
      apply run_once_request; assumption.
    + destruct (data m) as [|d0 r]; [discriminate P|].
      rewrite parse_isotp_single_frame_cons in P. discriminate P.
  - left. unfold run_once. rewrite bind_get.
    apply Z.eqb_neq in N. rewrite N. reflexivity.
Qed.

Lemma run_once_handled (msg : option Message) (draw : Z)
    (self : MiniECUStub.Self) :
  handled self (run_once msg draw self).
Proof.
  destruct (run_once_cases msg draw self) as [E | (m & sid & rest & _ & _ & _ & E)];
    rewrite E.
  - apply handled_same. auto with stub.
  - apply dispatch_handled.
Qed.

(** The encoding of a payload that fits, and what the decoder makes of it. *)
Lemma single_frame_facts (pl : bytes) :
  (length pl <= 7)%nat ->
  length (single_frame pl) = 8%nat /\
  parse_isotp_single_frame (single_frame pl) = Ok pl.
Proof.
  intros L. unfold single_frame.
  destruct (make_isotp_single_frame_ok pl L) as (pci & V & E). rewrite E.
  split.
  - cbn [length]. rewrite length_app, repeat_length. lia.
  - rewrite parse_isotp_single_frame_cons, V.
    rewrite land_nibble_small by (unfold len; lia).
    unfold len. rewrite Nat2Z.id.
    rewrite firstn_app, Nat.sub_diag, firstn_all. cbn [firstn].
    apply f_equal, app_nil_r.
Qed.

Lemma transmit_well_formed (res : Z) (pl : bytes) :
  (2 <= length pl <= 7)%nat ->
  well_formed_reply res
    {| arbitration_id := res; is_extended_id := false;
       data := single_frame pl |}.
Proof.
  intros L. destruct (single_frame_facts pl) as [L8 P]; [lia|].
  repeat split; cbn [arbitration_id is_extended_id data]; try assumption.
  exists pl. repeat split; try lia; [apply single_frame_eq; lia | exact P].
Qed.

Lemma pass_shape_frames (res : Z) (tr : list Effect) :
  pass_shape final_reply res tr ->
  Forall (well_formed_reply res) (frames_sent tr).
Proof.
  intros [ | pl [L _] | | ]; unfold frames_sent, transmit;
    cbn [flat_map app];
    repeat (apply Forall_cons;
            [apply transmit_well_formed; cbn [length pending_reply]; lia|]);
    apply Forall_nil.
Qed.

Lemma frames_sent_app (t1 t2 : list Effect) :
  frames_sent (t1 ++ t2) = frames_sent t1 ++ frames_sent t2.
Proof. unfold frames_sent. apply flat_map_app. Qed.

(** Any number of passes: no exception, configuration and identifier table
    untouched, every frame sent well formed. *)
Lemma run_handled (inbox : list (option Message * Z)) :
  forall self : MiniECUStub.Self,
  exists self' tr,
    run inbox self = (Ok tt, self', tr) /\
    cfg self' = cfg self /\
    did_map self' = did_map self /\
    Forall (well_formed_reply (res_id (cfg self))) (frames_sent tr).
Proof.
  induction inbox as [|[msg draw] inbox IH]; intros self.
  - exists self, []. repeat split. constructor.
  - cbn [run]. unfold bind.
    destruct (run_once_handled msg draw self) as (s1 & t1 & E1 & C1 & D1 & S1).
    rewrite E1.
    destruct (IH s1) as (s2 & t2 & E2 & C2 & D2 & F2). rewrite E2.
    exists s2, (t1 ++ t2). repeat split; try congruence.
    rewrite frames_sent_app. apply Forall_app. split.
    + apply pass_shape_frames.
      apply (pass_shape_weaken _ _ _ _ stub_final_final_reply S1).
    + rewrite <- C1. exact F2.
Qed.

(** X5. The stub's loop never raises, whatever frames arrive and whatever the
    random draws are, and it never changes its configuration or its
    identifier table. *)
Theorem run_never_raises (inbox : list (option Message * Z))
    (self : MiniECUStub.Self) :
  exists self' tr,
    run inbox self = (Ok tt, self', tr) /\
    cfg self' = cfg self /\
    did_map self' = did_map self.
Proof.
  destruct (run_handled inbox self) as (s & t & E & C & D & _).
  exists s, t. auto.
Qed.

(** X6. Every frame the stub sends is on the response id, has a standard
    identifier, is 8 bytes long, and is the encoding of a payload of 2 to 7
    bytes that the decoder gives back. *)
Theorem run_sends_well_formed_frames (inbox : list (option Message * Z))
    (self : MiniECUStub.Self) :
  Forall (well_formed_reply (res_id (cfg self)))
         (frames_sent (snd (run inbox self))).
Proof.
  destruct (run_handled inbox self) as (s & t & E & _ & _ & F).
  rewrite E. exact F.
Qed.

(** X7. One pass of the loop leaves one of four traces: nothing; one final
    reply; the pending reply [0x7F, 0x10, 0x78] and the 150 ms sleep; or
    those two followed by [0x50, 0x03].  So a pass sends at most two
    frames, sleeps only after the pending reply, and never sends the
    pending reply last when a final reply follows. *)
Theorem run_once_trace_shape (msg : option Message) (draw : Z)
    (self : MiniECUStub.Self) :
  pass_shape final_reply (res_id (cfg self)) (snd (run_once msg draw self)).
Proof.
  destruct (run_once_handled msg draw self) as (s & t & E & _ & _ & S).
  rewrite E. exact (pass_shape_weaken _ _ _ _ stub_final_final_reply S).
Qed.

(** ** Replies, service by service *)

Lemma dispatch_0x10 (draw : Z) (uds : bytes) :
  dispatch draw uds (byte_int x10) = DiagnosticSessionControl uds.
Proof. reflexivity. Qed.

Lemma dispatch_0x11 (draw : Z) (uds : bytes) :
  dispatch draw uds (byte_int x11) = ECUReset uds.
Proof. reflexivity. Qed.

Lemma dispatch_0x22 (draw : Z) (uds : bytes) :
  dispatch draw uds (byte_int x22) = ReadDataByIdentifier uds.
Proof. reflexivity. Qed.

Lemma dispatch_0x27 (draw : Z) (uds : bytes) :
  dispatch draw uds (byte_int x27) = SecurityAccess draw uds.
Proof. reflexivity. Qed.

Lemma dispatch_0x19 (draw : Z) (uds : bytes) :
  dispatch draw uds (byte_int x19) = ReadDTCInformation uds.
Proof. reflexivity. Qed.

Lemma dispatch_0x31 (draw : Z) (uds : bytes) :
  dispatch draw uds (byte_int x31) = RoutineControl uds.
Proof. reflexivity. Qed.

Lemma dispatch_0x3E (draw : Z) (uds : bytes) :
  dispatch draw uds (byte_int x3e) = TesterPresent uds.
Proof. reflexivity. Qed.

Lemma dispatch_0x85 (draw : Z) (uds : bytes) :
  dispatch draw uds (byte_int x85) = ControlDTCSetting uds.
Proof. reflexivity. Qed.

(** X8. A request too short for its service is answered with the negative
    reply [0x7F, sid, 0x11] and changes nothing: a bare service id for
    0x10, 0x11, 0x27, 0x19, 0x31 and 0x85; fewer than two identifier bytes
    for 0x22; fewer than two key bytes after [0x27, 0x02]; fewer than two
    routine-id bytes after [0x31, 0x01]. *)
Theorem short_request_replies_0x11 (self : MiniECUStub.Self) (m : Message)
    (draw : Z) (sid : byte) (rest : bytes) :
  arbitration_id m = req_id (cfg self) ->
  parse_isotp_single_frame (data m) = Ok (sid :: rest) ->
  (In sid [x10; x11; x27; x19; x31; x85] /\ rest = []) \/
  (sid = x22 /\ (length rest < 2)%nat) \/
  (sid = x27 /\ exists key, rest = x02 :: key /\ (length key < 2)%nat) \/
  (sid = x31 /\ exists rid, rest = x01 :: rid /\ (length rid < 2)%nat) ->
  run_once (Some m) draw self
  = (Ok tt, self, [transmit (res_id (cfg self)) [x7f; sid; x11]]).
Proof.
  intros A P H. rewrite (run_once_request _ _ _ _ _ A P).
  destruct H as [[I ->] | [[-> L] | [[-> (key & -> & L)] | [-> (rid & -> & L)]]]].
  - cbn [In] in I.
    destruct I as [<- | [<- | [<- | [<- | [<- | [<- | []]]]]]]; reflexivity.
  - destruct rest as [|a [|b rest]]; [reflexivity | reflexivity |].
    cbn [length] in L. lia.
  - destruct key as [|a [|b key]]; [reflexivity | reflexivity |].
    cbn [length] in L. lia.
  - destruct rid as [|a [|b rid]]; [reflexivity | reflexivity |].
    cbn [length] in L. lia.
Qed.

Lemma short_request_replies_0x11_witness :
  run_once (Some (mkMessage 0x7E0 false (single_frame [x27; x02; xab])))
           0 (__init__ ECUConfig_default)
  = (Ok tt, __init__ ECUConfig_default, [transmit 0x7E8 [x7f; x27; x11]]).
Proof.
  apply (short_request_replies_0x11 (__init__ ECUConfig_default)
           (mkMessage 0x7E0 false (single_frame [x27; x02; xab]))
           0 x27 [x02; xab]).
  - reflexivity.
  - reflexivity.
  - right. right. left. split; [reflexivity|].
    exists [xab]. split; [reflexivity | simpl; lia].
Defined.

(** X9. An unsupported sub-function is answered with [0x7F, sid, 0x12] and
    changes nothing.  Services 0x10, 0x11 and 0x85 look at the sub-function
    with bit 7 masked off, and send this negative reply whether bit 7 is
    set or not; services 0x27, 0x19 and 0x31 compare the whole byte, so
    their sub-functions with bit 7 set (0x81, 0x82) are unsupported. *)
Theorem unknown_sub_function_replies_0x12 (self : MiniECUStub.Self)
    (m : Message) (draw : Z) (sid sub : byte) (rest : bytes) :
  arbitration_id m = req_id (cfg self) ->
  parse_isotp_single_frame (data m) = Ok (sid :: sub :: rest) ->
  (In sid [x10; x11] /\ Z.land (byte_int sub) 0x7F <> 1
                     /\ Z.land (byte_int sub) 0x7F <> 3) \/
  (sid = x85 /\ Z.land (byte_int sub) 0x7F <> 1
             /\ Z.land (byte_int sub) 0x7F <> 2) \/
  (sid = x27 /\ sub <> x01 /\ sub <> x02) \/
  (sid = x19 /\ sub <> x02) \/
  (sid = x31 /\ sub <> x01) ->
  run_once (Some m) draw self
  = (Ok tt, self, [transmit (res_id (cfg self)) [x7f; sid; x12]]).
Proof.
  intros A P H. rewrite (run_once_request _ _ _ _ _ A P).
  destruct H as [[I [N1 N3]] | [[-> [N1 N2]] | [[-> [N1 N2]]
                | [[-> N2] | [-> N1]]]]].
  - apply Z.eqb_neq in N1, N3. cbn [In] in I.
    destruct I as [<- | [<- | []]].
    + rewrite dispatch_0x10, DiagnosticSessionControl_eq. cbv zeta.
      rewrite N1, N3. reflexivity.
    + rewrite dispatch_0x11, ECUReset_eq. cbv zeta.
      rewrite N1, N3. reflexivity.
  - apply Z.eqb_neq in N1, N2.
    rewrite dispatch_0x85, ControlDTCSetting_eq. cbv zeta.
    rewrite N1, N2. reflexivity.
  - rewrite dispatch_0x27. apply SecurityAccess_other_eq; assumption.
  - rewrite dispatch_0x19, ReadDTCInformation_eq.
    change 0x02 with (byte_int x02). rewrite byte_int_neqb by assumption.
    reflexivity.
  - rewrite dispatch_0x31. apply RoutineControl_other_eq; assumption.
Qed.

Lemma unknown_sub_function_replies_0x12_witness :
  run_once (Some (mkMessage 0x7E0 false (single_frame [x27; x81])))
           0 (__init__ ECUConfig_default)
  = (Ok tt, __init__ ECUConfig_default, [transmit 0x7E8 [x7f; x27; x12]])
  /\
  run_once (Some (mkMessage 0x7E0 false (single_frame [x10; x82])))
           0 (__init__ ECUConfig_default)
  = (Ok tt, __init__ ECUConfig_default, [transmit 0x7E8 [x7f; x10; x12]]).
Proof.
  split.
  - apply (unknown_sub_function_replies_0x12 (__init__ ECUConfig_default)
             (mkMessage 0x7E0 false (single_frame [x27; x81])) 0 x27 x81 []).
    + reflexivity.
    + reflexivity.
    + right. right. left. repeat split; discriminate.
  - apply (unknown_sub_function_replies_0x12 (__init__ ECUConfig_default)
             (mkMessage 0x7E0 false (single_frame [x10; x82])) 0 x10 x82 []).
    + reflexivity.
    + reflexivity.
    + left. split; [simpl; tauto|]. split; vm_compute; discriminate.
Defined.

(** X10. ReadDataByIdentifier looks the two identifier bytes up in the
    identifier table: a value of at most 4 bytes is returned behind
    [0x62, idHi, idLo]; an identifier that is not in the table, or whose
    value is longer, gets [0x7F, 0x22, 0x31].  Bytes after the identifier
    are ignored. *)
Theorem read_data_by_identifier_reply (self : MiniECUStub.Self)
    (m : Message) (draw : Z) (did_hi did_lo : byte) (rest : bytes) :
  arbitration_id m = req_id (cfg self) ->
  parse_isotp_single_frame (data m) = Ok (x22 :: did_hi :: did_lo :: rest) ->
  run_once (Some m) draw self
  = (Ok tt, self,
     match dict_get (did_map self) (byte_int did_hi, byte_int did_lo) with
     | Some value =>
         if len value <=? 4
         then [transmit (res_id (cfg self)) (x62 :: did_hi :: did_lo :: value)]
         else [transmit (res_id (cfg self)) [x7f; x22; x31]]
     | None => [transmit (res_id (cfg self)) [x7f; x22; x31]]
     end).
Proof.
  intros A P. rewrite (run_once_request _ _ _ _ _ A P), dispatch_0x22.
  apply ReadDataByIdentifier_eq.
Qed.

Lemma read_data_by_identifier_reply_witness :
  run_once (Some (mkMessage 0x7E0 false (single_frame [x22; xf1; xa0])))
           0 (__init__ ECUConfig_default)
  = (Ok tt, __init__ ECUConfig_default,
     [transmit 0x7E8 [x62; xf1; xa0; x58; x31]]).
Proof.
  apply (read_data_by_identifier_reply (__init__ ECUConfig_default)
           (mkMessage 0x7E0 false (single_frame [x22; xf1; xa0]))
           0 xf1 xa0 []); reflexivity.
Defined.

(** X11. StartRoutine is accepted for routine id 0xFF00 only: the reply is
    [0x71, 0x01, 0xFF, 0x00, 0x00]; any other routine id gets
    [0x7F, 0x31, 0x31]. *)
Theorem routine_control_start_reply (self : MiniECUStub.Self)
    (m : Message) (draw : Z) (rid_hi rid_lo : byte) (rest : bytes) :
  arbitration_id m = req_id (cfg self) ->
  parse_isotp_single_frame (data m)
  = Ok (x31 :: x01 :: rid_hi :: rid_lo :: rest) ->
  (rid_hi = xff /\ rid_lo = x00 ->
   run_once (Some m) draw self
   = (Ok tt, self,
      [transmit (res_id (cfg self)) [x71; x01; xff; x00; x00]]))
  /\
  (~ (rid_hi = xff /\ rid_lo = x00) ->
   run_once (Some m) draw self
   = (Ok tt, self, [transmit (res_id (cfg self)) [x7f; x31; x31]])).
Proof.
  intros A P. rewrite (run_once_request _ _ _ _ _ A P), dispatch_0x31.
  rewrite RoutineControl_start_eq. split.
  - intros [-> ->]. reflexivity.
  - intros N.
    destruct (Z.eqb_spec (256 * byte_int rid_hi + byte_int rid_lo) 0xFF00)
      as [E|_]; [|reflexivity].
    exfalso. apply N.
    pose proof (byte_int_range rid_hi). pose proof (byte_int_range rid_lo).
    split; apply byte_int_inj.
    + change (byte_int xff) with 255. lia.
    + change (byte_int x00) with 0. lia.
Qed.

Lemma routine_control_start_reply_witness :
  run_once (Some (mkMessage 0x7E0 false (single_frame [x31; x01; xff; x00])))
           0 (__init__ ECUConfig_default)
  = (Ok tt, __init__ ECUConfig_default,
     [transmit 0x7E8 [x71; x01; xff; x00; x00]])
  /\
  run_once (Some (mkMessage 0x7E0 false (single_frame [x31; x01; xff; x01])))
           0 (__init__ ECUConfig_default)
  = (Ok tt, __init__ ECUConfig_default, [transmit 0x7E8 [x7f; x31; x31]]).
Proof.
  split.
  - apply (proj1 (routine_control_start_reply (__init__ ECUConfig_default)
             (mkMessage 0x7E0 false (single_frame [x31; x01; xff; x00]))
             0 xff x00 [] eq_refl eq_refl)).
    split; reflexivity.
  - apply (proj2 (routine_control_start_reply (__init__ ECUConfig_default)
             (mkMessage 0x7E0 false (single_frame [x31; x01; xff; x01]))
             0 xff x01 [] eq_refl eq_refl)).
    intros [_ H]. discriminate H.
Defined.

(** X12. ReportDTCByStatusMask always returns the same record
    [0x59, 0x02, 0x12, 0x34, 0x56, 0x00], whatever the mask is and whether
    or not a mask byte is present. *)
Theorem read_dtc_fixed_record (self : MiniECUStub.Self)
    (m : Message) (draw : Z) (rest : bytes) :
  arbitration_id m = req_id (cfg self) ->
  parse_isotp_single_frame (data m) = Ok (x19 :: x02 :: rest) ->
  run_once (Some m) draw self
  = (Ok tt, self,
     [transmit (res_id (cfg self)) [x59; x02; x12; x34; x56; x00]]).
Proof.
  intros A P. rewrite (run_once_request _ _ _ _ _ A P), dispatch_0x19.
  rewrite ReadDTCInformation_eq. reflexivity.
Qed.

Lemma read_dtc_fixed_record_witness :
  run_once (Some (mkMessage 0x7E0 false (single_frame [x19; x02])))
           0 (__init__ ECUConfig_default)
  = (Ok tt, __init__ ECUConfig_default,
     [transmit 0x7E8 [x59; x02; x12; x34; x56; x00]]).
Proof.
  apply (read_dtc_fixed_record (__init__ ECUConfig_default)
           (mkMessage 0x7E0 false (single_frame [x19; x02])) 0 []);
    reflexivity.
Defined.

(** The two seed bytes of the reply spell the seed, high byte first. *)
Lemma seed_bytes_value (draw : Z) :
  0 <= draw <= 0xFFFF ->
  256 * Z.land (Z.shiftr draw 8) 0xFF + Z.land draw 0xFF = draw.
Proof.
  intros R. change 0xFF with (Z.ones 8). rewrite !Z.land_ones by lia.
  rewrite Z.shiftr_div_pow2 by lia. change (2 ^ 8) with 256.
  rewrite (Z.mod_small (draw / 256)).
  - pose proof (Z.div_mod draw 256 ltac:(lia)). lia.
  - split; [apply Z.div_pos; lia | apply Z.div_lt_upper_bound; lia].
Qed.

(** X13. A seed request stores the drawn seed, leaves [unlocked] as it was,
    and reports the seed in the reply [0x67, 0x01, hi, lo], high byte
    first. *)
Theorem seed_request_stores_and_reports_seed (self : MiniECUStub.Self)
    (m : Message) (draw : Z) (rest : bytes) :
  arbitration_id m = req_id (cfg self) ->
  parse_isotp_single_frame (data m) = Ok (x27 :: x01 :: rest) ->
  0 <= draw <= 0xFFFF ->
  exists hi lo,
    256 * byte_int hi + byte_int lo = draw /\
    run_once (Some m) draw self
    = (Ok tt,
       {| cfg := cfg self; unlocked := unlocked self;
          _last_seed := Some draw; did_map := did_map self |},
       [transmit (res_id (cfg self)) [x67; x01; hi; lo]]).
Proof.
  intros A P R. rewrite (run_once_request _ _ _ _ _ A P), dispatch_0x27.
  rewrite SecurityAccess_seed_eq.
  exists (the_byte (Z.land (Z.shiftr draw 8) 0xFF)),
         (the_byte (Z.land draw 0xFF)).
  split; [|reflexivity].
  destruct (the_byte_ok _ (land_ff_range (Z.shiftr draw 8))) as [_ ->].
  destruct (the_byte_ok _ (land_ff_range draw)) as [_ ->].
  apply seed_bytes_value, R.
Qed.

Lemma seed_request_stores_and_reports_seed_witness :
  exists hi lo,
    256 * byte_int hi + byte_int lo = 0xBEEF /\
    run_once (Some (mkMessage 0x7E0 false (single_frame [x27; x01])))
             0xBEEF (__init__ ECUConfig_default)
    = (Ok tt,
       {| cfg := ECUConfig_default; unlocked := false;
          _last_seed := Some 0xBEEF;
          did_map := did_map (__init__ ECUConfig_default) |},
       [transmit 0x7E8 [x67; x01; hi; lo]]).
Proof.
  apply (seed_request_stores_and_reports_seed (__init__ ECUConfig_default)
           (mkMessage 0x7E0 false (single_frame [x27; x01])) 0xBEEF []).
  - reflexivity.
  - reflexivity.
  - lia.
Defined.

(** X14. A key check neither consumes nor changes the stored seed: the same
    send-key request, repeated, gets the same reply and leaves the same
    state, so a key that was accepted once is accepted again. *)
Theorem key_check_is_repeatable (self : MiniECUStub.Self) (m : Message)
    (d1 d2 : Z) (k_hi k_lo : byte) (rest : bytes) :
  arbitration_id m = req_id (cfg self) ->
  parse_isotp_single_frame (data m) = Ok (x27 :: x02 :: k_hi :: k_lo :: rest) ->
  exists (u : bool) (tr : list Effect),
    run_once (Some m) d1 self = (Ok tt, set_unlocked u self, tr) /\
    _last_seed (set_unlocked u self) = _last_seed self /\
    run_once (Some m) d2 (set_unlocked u self)
    = (Ok tt, set_unlocked u self, tr).
Proof.
  intros A P.
  assert (A' : forall u, arbitration_id m = req_id (cfg (set_unlocked u self)))
    by (intros u; exact A).
  rewrite (run_once_request _ _ _ _ _ A P), dispatch_0x27.
  rewrite SecurityAccess_key_eq.
  destruct (256 * byte_int k_hi + byte_int k_lo
            =? (match _last_seed self with Some s => s | None => 0 end + 1)
               mod 65536) eqn:K.
  - exists true. eexists. split; [reflexivity|]. split; [reflexivity|].
    rewrite (run_once_request _ _ _ _ _ (A' true) P), dispatch_0x27.
    rewrite SecurityAccess_key_eq. cbn [_last_seed set_unlocked].
    rewrite K. reflexivity.
  - exists false. eexists. split; [reflexivity|]. split; [reflexivity|].
    rewrite (run_once_request _ _ _ _ _ (A' false) P), dispatch_0x27.
    rewrite SecurityAccess_key_eq. cbn [_last_seed set_unlocked].
    rewrite K. reflexivity.
Qed.

Lemma key_check_is_repeatable_witness :
  exists (u : bool) (tr : list Effect),
    run_once (Some (mkMessage 0x7E0 false (single_frame [x27; x02; x00; x01])))
             0 (__init__ ECUConfig_default)
    = (Ok tt, set_unlocked u (__init__ ECUConfig_default), tr) /\
    _last_seed (set_unlocked u (__init__ ECUConfig_default))
    = _last_seed (__init__ ECUConfig_default) /\
    run_once (Some (mkMessage 0x7E0 false (single_frame [x27; x02; x00; x01])))
             7 (set_unlocked u (__init__ ECUConfig_default))
    = (Ok tt, set_unlocked u (__init__ ECUConfig_default), tr).
Proof.
  apply (key_check_is_repeatable (__init__ ECUConfig_default)
           (mkMessage 0x7E0 false (single_frame [x27; x02; x00; x01]))
           0 7 x00 x01 []); reflexivity.
Defined.

(** The two key bytes the console builds from a key value,
    [(key >> 8) & 0xFF] and [key & 0xFF], spell the key modulo 65536. *)
Lemma key_bytes_value (key : Z) :
  256 * Z.land (Z.shiftr key 8) 0xFF + Z.land key 0xFF = key mod 65536.
Proof.
  change 0xFF with (Z.ones 8). rewrite !Z.land_ones by lia.
  rewrite Z.shiftr_div_pow2 by lia. change (2 ^ 8) with 256.
  change 65536 with (256 * 256). rewrite Z.rem_mul_r by lia. lia.
Qed.

(** X15. The documented key always unlocks: after a seed request that drew
    [s], the send-key request carrying [((s + 1) >> 8) & 0xFF] and
    [(s + 1) & 0xFF] is accepted and leaves the unit with
    [unlocked = true] and the seed still stored, also when [s] is 0xFFFF
    and the key wraps around to 0. *)
Theorem seed_then_documented_key_unlocks (self : MiniECUStub.Self)
    (seed_m key_m : Message) (s d : Z) :
  arbitration_id seed_m = req_id (cfg self) ->
  parse_isotp_single_frame (data seed_m) = Ok [x27; x01] ->
  arbitration_id key_m = req_id (cfg self) ->
  parse_isotp_single_frame (data key_m)
  = Ok [x27; x02; the_byte (Z.land (Z.shiftr (s + 1) 8) 0xFF);
                  the_byte (Z.land (s + 1) 0xFF)] ->
  0 <= s <= 0xFFFF ->
  run [(Some seed_m, s); (Some key_m, d)] self
  = (Ok tt,
     {| cfg := cfg self; unlocked := true;
        _last_seed := Some s; did_map := did_map self |},
     [transmit (res_id (cfg self))
        [x67; x01; the_byte (Z.land (Z.shiftr s 8) 0xFF);
                   the_byte (Z.land s 0xFF)];
      transmit (res_id (cfg self)) [x67; x02]]).
Proof.
  intros A1 P1 A2 P2 R. cbn [run]. unfold bind at 1.
  rewrite (run_once_request _ _ _ _ _ A1 P1), dispatch_0x27.
  rewrite SecurityAccess_seed_eq. unfold bind at 1.
  assert (A2' : arbitration_id key_m
                = req_id (cfg (set_last_seed (Some s) self))) by exact A2.
  rewrite (run_once_request _ _ _ _ _ A2' P2), dispatch_0x27.
  rewrite SecurityAccess_key_eq. cbn [_last_seed set_last_seed].
  destruct (the_byte_ok _ (land_ff_range (Z.shiftr (s + 1) 8))) as [_ ->].
  destruct (the_byte_ok _ (land_ff_range (s + 1))) as [_ ->].
  rewrite key_bytes_value, Z.eqb_refl. reflexivity.
Qed.

Lemma seed_then_documented_key_unlocks_witness :
  run [(Some (mkMessage 0x7E0 false (single_frame [x27; x01])), 0xFFFF);
       (Some (mkMessage 0x7E0 false (single_frame [x27; x02; x00; x00])), 0)]
      (__init__ ECUConfig_default)
  = (Ok tt,
     {| cfg := ECUConfig_default; unlocked := true;
        _last_seed := Some 0xFFFF;
        did_map := did_map (__init__ ECUConfig_default) |},
     [transmit 0x7E8 [x67; x01; xff; xff]; transmit 0x7E8 [x67; x02]]).
Proof.
  apply (seed_then_documented_key_unlocks (__init__ ECUConfig_default)
           (mkMessage 0x7E0 false (single_frame [x27; x01]))
           (mkMessage 0x7E0 false (single_frame [x27; x02; x00; x00]))
           0xFFFF 0).
  - reflexivity.
  - reflexivity.
  - reflexivity.
  - reflexivity.
  - lia.
Defined.

(** X16. With bit 7 clear, the supported sub-functions of SessionControl
    (0x01), ECUReset (0x01, 0x03) and ControlDTCSetting (0x01, 0x02) get the
    two-byte positive reply [sid + 0x40, sub] and nothing else: no interim
    reply, no sleep, no state change. *)
Theorem positive_reply_when_not_suppressed (self : MiniECUStub.Self)
    (m : Message) (draw : Z) (sid sub rsid : byte) (rest : bytes) :
  arbitration_id m = req_id (cfg self) ->
  parse_isotp_single_frame (data m) = Ok (sid :: sub :: rest) ->
  In (sid, sub, rsid)
     [(x10, x01, x50); (x11, x01, x51); (x11, x03, x51);
      (x85, x01, xc5); (x85, x02, xc5)] ->
  run_once (Some m) draw self
  = (Ok tt, self, [transmit (res_id (cfg self)) [rsid; sub]]).
Proof.
  intros A P I. rewrite (run_once_request _ _ _ _ _ A P).
  cbn [In] in I.
  destruct I as [E | [E | [E | [E | [E | []]]]]]; injection E as <- <- <-.
  - rewrite dispatch_0x10, DiagnosticSessionControl_eq. reflexivity.
  - rewrite dispatch_0x11, ECUReset_eq. reflexivity.
  - rewrite dispatch_0x11, ECUReset_eq. reflexivity.
  - rewrite dispatch_0x85, ControlDTCSetting_eq. reflexivity.
  - rewrite dispatch_0x85, ControlDTCSetting_eq. reflexivity.
Qed.

Lemma positive_reply_when_not_suppressed_witness :
  run_once (Some (mkMessage 0x7E0 false (single_frame [x85; x02])))
           0 (__init__ ECUConfig_default)
  = (Ok tt, __init__ ECUConfig_default, [transmit 0x7E8 [xc5; x02]]).
Proof.
  apply (positive_reply_when_not_suppressed (__init__ ECUConfig_default)
           (mkMessage 0x7E0 false (single_frame [x85; x02]))
           0 x85 x02 xc5 []).
  - reflexivity.
  - reflexivity.
  - simpl. tauto.
Defined.

(** Bit 7 of a byte is clear exactly when the byte is below 0x80, and
    masking it off then changes nothing. *)
Lemma bit7_clear_iff (sub : byte) :
  (Z.land (byte_int sub) 0x80 =? 0) = (byte_int sub <? 0x80).
Proof. destruct sub; reflexivity. Qed.

Lemma core_sub_same (sub : byte) :
  (byte_int sub <? 0x80) = true ->
  the_byte (Z.land (byte_int sub) 0x7F) = sub.
Proof. destruct sub; vm_compute; intros H; (reflexivity || discriminate H). Qed.

(** X17. TesterPresent has no negative path: a bare [0x3E] is answered
    [0x7E, 0x00]; any sub-function below 0x80 is echoed in [0x7E, sub];
    any sub-function with bit 7 set gets no reply.  Nothing else happens. *)
Theorem tester_present_echoes_sub_function (self : MiniECUStub.Self)
    (m : Message) (draw : Z) (rest : bytes) :
  arbitration_id m = req_id (cfg self) ->
  parse_isotp_single_frame (data m) = Ok (x3e :: rest) ->
  run_once (Some m) draw self
  = (Ok tt, self,
     match rest with
     | [] => [transmit (res_id (cfg self)) [x7e; x00]]
     | sub :: _ =>
         if byte_int sub <? 0x80
         then [transmit (res_id (cfg self)) [x7e; sub]]
         else []
     end).
Proof.
  intros A P. rewrite (run_once_request _ _ _ _ _ A P), dispatch_0x3E.
  destruct rest as [|sub rest]; [apply TesterPresent_bare_eq|].
  rewrite TesterPresent_eq, bit7_clear_iff.
  destruct (byte_int sub <? 0x80) eqn:C; [|reflexivity].
  rewrite (core_sub_same sub C). reflexivity.
Qed.

Lemma tester_present_echoes_sub_function_witness :
  run_once (Some (mkMessage 0x7E0 false (single_frame [x3e; x5a])))
           0 (__init__ ECUConfig_default)
  = (Ok tt, __init__ ECUConfig_default, [transmit 0x7E8 [x7e; x5a]]).
Proof.
  apply (tester_present_echoes_sub_function (__init__ ECUConfig_default)
           (mkMessage 0x7E0 false (single_frame [x3e; x5a])) 0 [x5a]);
    reflexivity.
Defined.

(** X18. A pass does nothing at all when the poll returned no frame, when the
    frame is not on the request id, or when its body decodes to the empty
    payload (an empty body, or a length nibble of 0). *)
Theorem frames_not_for_the_stub_are_ignored (self : MiniECUStub.Self)
    (msg : option Message) (draw : Z) :
  msg = None \/
  (exists m, msg = Some m /\
             (arbitration_id m <> req_id (cfg self) \/
              parse_isotp_single_frame (data m) = Ok [])) ->
  run_once msg draw self = (Ok tt, self, []).
Proof.
  intros [-> | (m & -> & H)]; [reflexivity|].
  destruct (run_once_cases (Some m) draw self)
    as [E | (m' & sid & rest & Em & A & P & _)]; [exact E|].
  injection Em as <-. destruct H as [N | P0]; [contradiction|].
  rewrite P in P0. discriminate P0.
Qed.

Lemma frames_not_for_the_stub_are_ignored_witness :
  run_once (Some (mkMessage 0x7E8 false (single_frame [x10; x03])))
           0 (__init__ ECUConfig_default)
  = (Ok tt, __init__ ECUConfig_default, [])
  /\
  run_once (Some (mkMessage 0x7E0 false [x10; x10; x03]))
           0 (__init__ ECUConfig_default)
  = (Ok tt, __init__ ECUConfig_default, []).
Proof.
  split.
  - apply (frames_not_for_the_stub_are_ignored (__init__ ECUConfig_default)).
    right. eexists. split; [reflexivity|]. left. discriminate.
  - apply (frames_not_for_the_stub_are_ignored (__init__ ECUConfig_default)).
    right. eexists. split; [reflexivity|]. right. reflexivity.
Defined.

(** X19. Only SecurityAccess requests change the unit: a pass on anything
    else (no frame, a foreign frame, any other service id, supported or
    not) leaves the whole state, [unlocked] and the stored seed included,
    as it was. *)
Theorem only_security_access_changes_state (self : MiniECUStub.Self)
    (msg : option Message) (draw : Z) :
  (forall m rest, msg = Some m ->
                  parse_isotp_single_frame (data m) <> Ok (x27 :: rest)) ->
  snd (fst (run_once msg draw self)) = self.
Proof.
  intros H.
  destruct (run_once_cases msg draw self)
    as [E | (m & sid & rest & Em & A & P & E)]; rewrite E; [reflexivity|].
  apply (proj2 (dispatch_handled draw sid rest self)).
  intros ->. apply (H m rest Em P).
Qed.

Lemma only_security_access_changes_state_witness :
  snd (fst (run_once
              (Some (mkMessage 0x7E0 false (single_frame [x10; x03])))
              0 (set_unlocked true (__init__ ECUConfig_default))))
  = set_unlocked true (__init__ ECUConfig_default).
Proof.
  apply (only_security_access_changes_state
           (set_unlocked true (__init__ ECUConfig_default))).
  intros m rest E. injection E as <-. discriminate.
Defined.

(** X20. Every request a tester can encode reaches the service chain
    unchanged: a frame on the request id carrying the encoding of a
    payload of 1 to 7 bytes is dispatched on that very payload, whatever
    its [is_extended_id] flag says. *)
Theorem encoded_request_reaches_the_service_chain (ecu : MiniECUStub.Self)
    (draw : Z) (ext : bool) (sid : byte) (rest : bytes) :
  (length (sid :: rest) <= 7)%nat ->
  run_once (Some (mkMessage (req_id (cfg ecu)) ext (single_frame (sid :: rest))))
           draw ecu
  = dispatch draw (sid :: rest) (byte_int sid) ecu.
Proof.
  intros L. apply run_once_request; [reflexivity|].
  apply single_frame_facts, L.
Qed.

Lemma encoded_request_reaches_the_service_chain_witness :
  run_once (Some (mkMessage 0x7E0 true (single_frame [x22; xf1; x88])))
           0 (__init__ ECUConfig_default)
  = dispatch 0 [x22; xf1; x88] (byte_int x22) (__init__ ECUConfig_default).
Proof.
  apply (encoded_request_reaches_the_service_chain
           (__init__ ECUConfig_default) 0 true x22 [xf1; x88]).
  simpl. lia.
Defined.

(** ** Display *)

(** Settle the length tests of [explain_response] on a payload whose
    first bytes are known. *)
Ltac settle_len :=
  repeat match goal with
         | |- context [len ?l >=? ?k] =>
             first
               [ rewrite (len_geb_true l k) by long_enough
               | let v := eval vm_compute in (len l >=? k) in
                 change (len l >=? k) with v ]
         end;
  rewrite ?Bool.andb_false_r, ?Bool.andb_true_r.

(** Split on every test that is left. *)
Ltac split_tests :=
  repeat (cbv beta iota;
          match goal with
          | |- context [if ?c then _ else _] => destruct c eqn:?
          | |- context [match decode_ascii ?v with _ => _ end] =>
              destruct (decode_ascii v) eqn:?
          end);
  cbv beta iota.

Lemma explain_response_total (resp : bytes) :
  exists text, explain_response resp = Ok text.
Proof.
  destruct resp as [|b0 [|b1 [|b2 [|b3 [|b4 [|b5 rest]]]]]];
    unfold explain_response, explain_rest, and_then, index;
    cbn [nth_error]; settle_len; split_tests; eauto.
Qed.

(** X21. [explain_response] never raises: every index it takes is behind a
    length test that covers it, and a failed ASCII decoding is caught. *)
Theorem explain_response_never_raises (resp : bytes) :
  exists text, explain_response resp = Ok text.
Proof. apply explain_response_total. Qed.

Lemma string_length_append (s t : String.string) :
  String.length (String.append s t) = (String.length s + String.length t)%nat.
Proof.
  induction s as [|c s IH]; [reflexivity|].
  cbn [String.append String.length]. rewrite IH. reflexivity.
Qed.

(** A byte is shown as its two hexadecimal digits. *)
Lemma format_X_byte (x : byte) :
  format_X 2 (byte_int x)
  = String.String (hex_digit (byte_int x / 16))
      (String.String (hex_digit (byte_int x mod 16)) String.EmptyString).
Proof. destruct x; reflexivity. Qed.

Lemma hexstr_cons (x : byte) (rest : bytes) :
  hexstr (x :: rest)
  = String.String (hex_digit (byte_int x / 16))
      (String.String (hex_digit (byte_int x mod 16))
         match rest with
         | [] => String.EmptyString
         | _ :: _ => String.String " "%char (hexstr rest)
         end).
Proof.
  unfold hexstr. cbn [map String.concat]. rewrite format_X_byte.
  destruct rest as [|y rest]; reflexivity.
Qed.

(** X22. [hexstr] writes 2 characters per byte and one space between bytes:
    [3 * len(b) - 1] characters for a non-empty [b], none for the empty
    one. *)
Theorem hexstr_length (b : bytes) :
  String.length (hexstr b) = (3 * length b - 1)%nat.
Proof.
  induction b as [|x rest IH]; [reflexivity|].
  rewrite hexstr_cons. destruct rest as [|y rest]; [reflexivity|].
  cbn [String.length]. rewrite IH. cbn [length]. lia.
Qed.

Lemma hex_digit_inj (a b : Z) :
  0 <= a < 16 -> 0 <= b < 16 -> hex_digit a = hex_digit b -> a = b.
Proof.
  intros Ra Rb.
  assert (Ha : In a [0; 1; 2; 3; 4; 5; 6; 7; 8; 9; 10; 11; 12; 13; 14; 15])
    by (cbn [In]; lia).
  assert (Hb : In b [0; 1; 2; 3; 4; 5; 6; 7; 8; 9; 10; 11; 12; 13; 14; 15])
    by (cbn [In]; lia).
  cbn [In] in Ha, Hb.
  repeat (destruct Ha as [<- | Ha]; [| ]); try contradiction;
    repeat (destruct Hb as [<- | Hb]; [| ]); try contradiction;
    intros H; (reflexivity || discriminate H).
Qed.

(** X23. [hexstr] is injective: payloads that are shown the same are the
    same. *)
Theorem hexstr_injective (a b : bytes) : hexstr a = hexstr b -> a = b.
Proof.
  revert b. induction a as [|x ra IH]; intros [|y rb] H.
  - reflexivity.
  - rewrite hexstr_cons in H. discriminate H.
  - rewrite hexstr_cons in H. discriminate H.
  - rewrite !hexstr_cons in H. injection H as H1 H2 H3.
    pose proof (byte_int_range x). pose proof (byte_int_range y).
    apply hex_digit_inj in H1;
      [| split; [apply Z.div_pos | apply Z.div_lt_upper_bound]; lia ..].
    apply hex_digit_inj in H2; [| apply Z.mod_pos_bound; lia ..].
    assert (x = y) as ->.
    { apply byte_int_inj.
      rewrite (Z.div_mod (byte_int x) 16), (Z.div_mod (byte_int y) 16) by lia.
      rewrite H1, H2. reflexivity. }
    f_equal.
    destruct ra as [|x' ra], rb as [|y' rb]; try discriminate H3.
    + reflexivity.
    + injection H3 as H3. apply IH, H3.
Qed.

Lemma hexstr_injective_witness : [x01; xab] = [x01; xab].
Proof. apply (hexstr_injective [x01; xab] [x01; xab]). reflexivity. Defined.

(** X24. [explain_response] says "Negative(..." exactly for the payloads of
    at least 3 bytes that start with 0x7F; a 2-byte payload starting with
    0x7F is not a negative reply to it. *)
Theorem explain_response_negative_iff (resp : bytes) :
  exists text,
    explain_response resp = Ok text /\
    (String.prefix "Negative(" text = true <->
     exists a b rest, resp = x7f :: a :: b :: rest).
Proof.
  destruct resp as [|b0 [|b1 [|b2 rest]]].
  - eexists. split; [reflexivity|]. split; [discriminate|].
    intros (a & b & r & H). discriminate H.
  - destruct (explain_response_total [b0]) as [text E].
    exists text. split; [exact E|]. split.
    + revert E. unfold explain_response, explain_rest, and_then, index.
      cbn [nth_error]. settle_len. split_tests;
        intros E; injection E as <-; intros H; vm_compute in H;
        discriminate H.
    + intros (a & b & r & H). discriminate H.
  - destruct (explain_response_total [b0; b1]) as [text E].
    exists text. split; [exact E|]. split.
    + revert E. unfold explain_response, explain_rest, and_then, index.
      cbn [nth_error]. settle_len. split_tests;
        intros E; injection E as <-; intros H; vm_compute in H;
        discriminate H.
    + intros (a & b & r & H). discriminate H.
  - destruct (Z.eqb_spec (byte_int b0) 0x7F) as [E7|N7].
    + apply (byte_int_inj b0 x7f) in E7. subst b0.
      eexists. split.
      * unfold explain_response, and_then, index. cbn [nth_error].
        settle_len. reflexivity.
      * split; [intros _; eauto | intros _; reflexivity].
    + destruct (explain_response_total (b0 :: b1 :: b2 :: rest))
        as [text E].
      exists text. split; [exact E|]. split.
      * revert E. unfold explain_response, explain_rest, and_then, index.
        cbn [nth_error]. apply Z.eqb_neq in N7. rewrite N7. cbn [andb].
        destruct rest as [|b3 [|b4 [|b5 rest]]];
          settle_len; split_tests;
          intros E; injection E as <-; intros H; vm_compute in H;
          discriminate H.
      * intros (a & b & r & H). injection H as -> _ _ _.
        exfalso. apply N7. reflexivity.
Qed.

(** ** The replies of the stub and their explanations *)

Lemma pass_shape_known (res : Z) (tr : list Effect) :
  pass_shape stub_final res tr -> Forall (known_reply res) (frames_sent tr).
Proof.
  intros [ | pl F | | ]; unfold frames_sent, transmit; cbn [flat_map app];
    repeat (apply Forall_cons;
            [eexists; split; [reflexivity|];
             first [right; exact F
                   | left; reflexivity
                   | right; apply sf_session; simpl; tauto]|]);
    apply Forall_nil.
Qed.

Lemma run_known_replies (inbox : list (option Message * Z)) :
  forall self : MiniECUStub.Self,
  exists self' tr,
    run inbox self = (Ok tt, self', tr) /\
    cfg self' = cfg self /\
    Forall (known_reply (res_id (cfg self))) (frames_sent tr).
Proof.
  induction inbox as [|[msg draw] inbox IH]; intros self.
  - exists self, []. repeat split. constructor.
  - cbn [run]. unfold bind.
    destruct (run_once_handled msg draw self) as (s1 & t1 & E1 & C1 & _ & S1).
    rewrite E1.
    destruct (IH s1) as (s2 & t2 & E2 & C2 & F2). rewrite E2.
    exists s2, (t1 ++ t2). repeat split; try congruence.
    rewrite frames_sent_app. apply Forall_app. split.
    + apply pass_shape_known, S1.
    + rewrite <- C1. exact F2.
Qed.

(** X25. The catalogue of what the stub can send.  Every frame it puts on the
    bus carries the pending reply [0x7F, 0x10, 0x78] or one of ten final
    replies: a negative reply with code 0x11, 0x12, 0x31 or 0x35;
    [0x50, 01|03]; [0x51, 01|03]; [0x62, hi, lo] with at most 4 value
    bytes; [0x67, 0x01, hi, lo]; [0x67, 0x02]; the fixed DTC record;
    [0x71, 0x01, hi, lo, 0x00]; [0x7E, sub]; [0xC5, 01|02]. *)
Theorem run_sends_known_replies_only (inbox : list (option Message * Z))
    (self : MiniECUStub.Self) :
  Forall (known_reply (res_id (cfg self)))
         (frames_sent (snd (run inbox self))).
Proof.
  destruct (run_known_replies inbox self) as (s & t & E & _ & F).
  rewrite E. exact F.
Qed.

(** The pieces of [explained_by_name], for a payload whose explanation
    [text] has been computed. *)
Ltac named_text :=
  split; [reflexivity|];
  split;
    [ match goal with
      | |- ?text <> _ =>
          let P := fresh in
          let H := fresh in
          assert (P : String.prefix "Em" text = false) by reflexivity;
          intros H; rewrite H in P; discriminate P
      end
    | intros ? ? ?; try (intros ?; congruence) ].

Ltac explain_it :=
  unfold explain_response, explain_rest, and_then, index;
  cbn [nth_error skipn]; settle_len.

Lemma known_nrc_text (nrc : byte) :
  In nrc [x11; x12; x31; x35; x78] ->
  nrc_map_get (byte_int nrc) <> "?"%string.
Proof.
  cbn [In].
  intros [<- | [<- | [<- | [<- | [<- | []]]]]] H; vm_compute in H;
    discriminate H.
Qed.

Lemma known_reply_explained (pl : bytes) :
  pl = pending_reply \/ stub_final pl -> explained_by_name pl.
Proof.
  intros [-> | [sid nrc I | sub I | sub I | hi lo v L | hi lo | | | hi lo
               | sub | sub I]].
  - eexists. split; [reflexivity|]. named_text.
    intros E. injection E as _ <- _. apply known_nrc_text. simpl. tauto.
  - eexists. split; [explain_it; reflexivity|]. named_text.
    intros E. injection E as _ <- _. apply known_nrc_text.
    cbn [In] in I |- *. tauto.
  - eexists. split; [explain_it; reflexivity|]. named_text.
  - eexists. split; [explain_it; reflexivity|]. named_text.
  - destruct (decode_ascii v) as [text|] eqn:D.
    + eexists. split; [explain_it; rewrite D; reflexivity|]. named_text.
    + eexists. split; [explain_it; rewrite D; reflexivity|]. named_text.
  - eexists. split; [explain_it; reflexivity|]. named_text.
  - eexists. split; [explain_it; reflexivity|]. named_text.
  - eexists. split; [explain_it; reflexivity|]. named_text.
  - eexists. split; [explain_it; reflexivity|]. named_text.
  - eexists. split; [explain_it; reflexivity|]. named_text.
  - eexists. split; [explain_it; reflexivity|]. named_text.
Qed.

(** X26. [explain_response] knows every reply of the stub by name: for each
    frame the stub sends, the explanation of its payload is neither
    "Empty response" nor the catch-all "Positive response: ...", and the
    code of a negative reply is one [nrc_map] has a text for. *)
Theorem stub_replies_are_explained_by_name
    (inbox : list (option Message * Z)) (self : MiniECUStub.Self) :
  Forall (fun m => exists pl,
              parse_isotp_single_frame (data m) = Ok pl /\
              explained_by_name pl)
         (frames_sent (snd (run inbox self))).
Proof.
  destruct (run_known_replies inbox self) as (s & t & E & _ & F).
  rewrite E. cbn [snd]. eapply Forall_impl; [|exact F].
  intros m (pl & -> & K). exists pl. split.
  - cbn [data]. apply single_frame_facts.
    destruct K as [-> | K]; [cbn [length pending_reply]; lia|].
    apply stub_final_final_reply in K. destruct K as [K _]. lia.
  - apply known_reply_explained, K.
Qed.

(** ** Transaction engine *)

Import UDSClientSF.

(** The interim test never raises, and holds exactly for the payloads
    [0x7F, _, 0x78, ...]. *)
Lemma interim_true_iff (pl : bytes) :
  interim pl = Ok true <-> exists b rest, pl = x7f :: b :: x78 :: rest.
Proof.
  split.
  - destruct pl as [|p0 [|p1 [|p2 rest]]]; try discriminate.
    unfold interim. rewrite len_geb_true by long_enough.
    unfold index. cbn [nth_error].
    destruct (Z.eqb_spec (byte_int p0) 0x7F) as [E0|]; [|discriminate].
    destruct (Z.eqb_spec (byte_int p2) 0x78) as [E2|]; [|discriminate].
    intros _. exists p1, rest.
    rewrite (byte_int_inj p0 x7f E0), (byte_int_inj p2 x78 E2). reflexivity.
  - intros (b & rest & ->). unfold interim.
    rewrite len_geb_true by long_enough. reflexivity.
Qed.

Lemma interim_total (pl : bytes) : exists v, interim pl = Ok v.
Proof.
  unfold interim. destruct (len pl >=? 3) eqn:L; [|eauto].
  destruct pl as [|p0 [|p1 [|p2 rest]]]; try discriminate L.
  unfold index. cbn [nth_error]. destruct (byte_int p0 =? 0x7F); eauto.
Qed.

Lemma after_Ok (e : Effect) (rest : option (Result bytes * list Effect))
    (pl : bytes) (tr : list Effect) :
  after e rest = Some (Ok pl, tr) -> exists tr', rest = Some (Ok pl, tr').
Proof.
  destruct rest as [[r t]|]; [|discriminate]. cbn. intros E.
  injection E as -> _. eauto.
Qed.

Section Engine.

Context {T : Type} {C : Clock T}.
Variables (self : Self T) (w : World T).

(** A payload returned by the loop was decoded from the first frame, from
    pass [k] on, that the loop does not pass over. *)
Lemma poll_Ok (fuel : nat) :
  forall (k : nat) (last : option bytes) (pl : bytes) (tr : list Effect),
    poll self w (time_time w 0) fuel k last = Some (Ok pl, tr) ->
    exists (j : nat) (m : Message),
      (k <= j)%nat /\
      bus_recv w j = Some m /\
      arbitration_id m = res_id self /\
      parse_isotp_single_frame (data m) = Ok pl /\
      interim pl = Ok false /\
      (forall i, (k <= i < j)%nat -> passed_over self (bus_recv w i) = true).
Proof.
  induction fuel as [|fuel IH]; intros k last pl tr H; [discriminate|].
  cbn [poll] in H.
  destruct (t_lt _ _); [|discriminate].
  assert (step : forall last' tr',
             poll self w (time_time w 0) fuel (S k) last' = Some (Ok pl, tr') ->
             passed_over self (bus_recv w k) = true ->
             exists j m, (k <= j)%nat /\ bus_recv w j = Some m /\
               arbitration_id m = res_id self /\
               parse_isotp_single_frame (data m) = Ok pl /\
               interim pl = Ok false /\
               (forall i, (k <= i < j)%nat ->
                          passed_over self (bus_recv w i) = true)).
  { intros last' tr' H' Pk.
    destruct (IH _ _ _ _ H') as (j & m & Lj & Rj & Aj & Pj & Ij & Sj).
    exists j, m. repeat split; try assumption; [lia|].
    intros i Hi. destruct (Nat.eq_dec i k) as [->|]; [exact Pk|].
    apply Sj. lia. }
  destruct (bus_recv w k) as [r|] eqn:R.
  - destruct (arbitration_id r =? res_id self) eqn:A.
    + destruct (parse_isotp_single_frame (data r)) as [pl0|] eqn:P;
        [|discriminate].
      destruct (interim pl0) as [[|]|] eqn:I; [| |discriminate].
      * assert (Pk : passed_over self (Some r) = true)
          by (cbn; rewrite A, P, I; reflexivity).
        destruct (show_interim self && differs pl0 last).
        -- apply after_Ok in H. destruct H as [tr' H]. eapply step; eassumption.
        -- eapply step; eassumption.
      * injection H as -> _. exists k, r.
        repeat split; try assumption; [lia | apply Z.eqb_eq, A | lia].
    + eapply step; [eassumption|]. cbn. rewrite A. reflexivity.
  - eapply step; [eassumption|reflexivity].
Qed.

(** If the loop test fails at pass [k + n] and the [n] passes before it were
    in time and stopped at nothing, the loop raises [TimeoutError]. *)
Lemma poll_timeout (n : nat) :
  forall (fuel k : nat) (last : option bytes),
    (forall i, (k <= i < k + n)%nat ->
               in_time self w i = true /\
               passed_over self (bus_recv w i) = true) ->
    in_time self w (k + n) = false ->
    (n < fuel)%nat ->
    exists tr,
      poll self w (time_time w 0) fuel k last = Some (Raise TimeoutError, tr).
Proof.
  induction n as [|n IH]; intros fuel k last Hpass Hlate Hfuel;
    (destruct fuel as [|fuel]; [lia|]); cbn [poll].
  - rewrite Nat.add_0_r in Hlate. unfold in_time in Hlate. rewrite Hlate.
    eauto.
  - destruct (Hpass k ltac:(lia)) as [Tk Pk]. unfold in_time in Tk.
    rewrite Tk.
    assert (next : forall last', exists tr,
               poll self w (time_time w 0) fuel (S k) last'
               = Some (Raise TimeoutError, tr)).
    { intros last'. apply IH; [|rewrite Nat.add_succ_r in Hlate; exact Hlate|lia].
      intros i Hi. apply Hpass. lia. }
    unfold passed_over in Pk.
    destruct (bus_recv w k) as [r|]; [|apply next].
    destruct (arbitration_id r =? res_id self); [|apply next].
    destruct (parse_isotp_single_frame (data r)) as [pl0|]; [|discriminate].
    destruct (interim pl0) as [[|]|]; try discriminate.
    destruct (show_interim self && differs pl0 last); [|apply next].
    destruct (next (Some pl0)) as [tr E]. rewrite E. cbn. eauto.
Qed.

(** If pass [k + n] is in time and receives a frame from the response id
    whose payload is not interim, and the [n] passes before it were in time
    and stopped at nothing, the loop returns that payload. *)
Lemma poll_returns (n : nat) :
  forall (fuel k : nat) (last : option bytes) (m : Message) (pl : bytes),
    (forall i, (k <= i < k + n)%nat ->
               in_time self w i = true /\
               passed_over self (bus_recv w i) = true) ->
    in_time self w (k + n) = true ->
    bus_recv w (k + n) = Some m ->
    arbitration_id m = res_id self ->
    parse_isotp_single_frame (data m) = Ok pl ->
    interim pl = Ok false ->
    (n < fuel)%nat ->
    exists tr, poll self w (time_time w 0) fuel k last = Some (Ok pl, tr).
Proof.
  induction n as [|n IH]; intros fuel k last m pl Hpass Tn Rn An Pn In Hfuel;
    (destruct fuel as [|fuel]; [lia|]); cbn [poll].
  - rewrite Nat.add_0_r in Tn, Rn. unfold in_time in Tn.
    rewrite Tn, Rn, An, Z.eqb_refl, Pn, In. eauto.
  - destruct (Hpass k ltac:(lia)) as [Tk Pk]. unfold in_time in Tk.
    rewrite Tk.
    assert (next : forall last', exists tr,
               poll self w (time_time w 0) fuel (S k) last' = Some (Ok pl, tr)).
    { intros last'. rewrite Nat.add_succ_r in Tn, Rn.
      apply (IH fuel (S k) last' m pl); try assumption; [|lia].
      intros i Hi. apply Hpass. lia. }
    unfold passed_over in Pk.
    destruct (bus_recv w k) as [r|]; [|apply next].
    destruct (arbitration_id r =? res_id self); [|apply next].
    destruct (parse_isotp_single_frame (data r)) as [pl0|]; [|discriminate].
    destruct (interim pl0) as [[|]|]; try discriminate.
    destruct (show_interim self && differs pl0 last); [|apply next].
    destruct (next (Some pl0)) as [tr E]. rewrite E. cbn. eauto.
Qed.

(** The loop always comes to an end once the clock has run past the
    deadline: with a late pass at [k + n], fuel above [n] is enough. *)
Lemma poll_terminates (n : nat) :
  forall (fuel k : nat) (last : option bytes),
    in_time self w (k + n) = false ->
    (n < fuel)%nat ->
    exists res, poll self w (time_time w 0) fuel k last = Some res.
Proof.
  induction n as [|n IH]; intros fuel k last Hlate Hfuel;
    (destruct fuel as [|fuel]; [lia|]); cbn [poll].
  - rewrite Nat.add_0_r in Hlate. unfold in_time in Hlate. rewrite Hlate.
    eauto.
  - destruct (t_lt _ _); [|eauto].
    assert (next : forall last', exists res,
               poll self w (time_time w 0) fuel (S k) last' = Some res).
    { intros last'. apply IH; [|lia].
      rewrite Nat.add_succ_r in Hlate. exact Hlate. }
    destruct (bus_recv w k) as [r|]; [|apply next].
    destruct (arbitration_id r =? res_id self); [|apply next].
    destruct (parse_isotp_single_frame (data r)) as [pl0|]; [|eauto].
    destruct (interim pl0) as [[|]|]; [|eauto|eauto].
    destruct (show_interim self && differs pl0 last); [|apply next].
    destruct (next (Some pl0)) as [[r0 t0] E]. rewrite E. cbn. eauto.
Qed.

(** [send] returns or raises whenever some pass is late. *)
Lemma send_terminates (payload : bytes) (n fuel : nat) :
  in_time self w n = false ->
  (n < fuel)%nat ->
  exists res, send self w fuel payload = Some res.
Proof.
  intros Hlate Hfuel. unfold send.
  destruct (make_isotp_single_frame payload); [|eauto].
  destruct (poll_terminates n fuel 0 None Hlate Hfuel) as [[r t] E].
  rewrite E. cbn. eauto.
Qed.

End Engine.

(** C2, as the code has it.  A response-pending payload
    ([0x7F, _, 0x78, ...]) is never what [send] returns.  The engine keeps
    waiting: when the passes before pass [j] were in time and met only
    silence, foreign frames or interim payloads, and pass [j] is in time
    and receives a response-id frame whose payload is not interim, [send]
    returns that payload.  The deadline is not extended: every loop test
    compares against the same start reading and the same timeout, and when
    the passes before pass [n] were in time and met only silence, foreign
    frames or interim payloads, and pass [n] is late, [send] raises
    [TimeoutError]. *)
Theorem send_response_pending_never_final (T : Type) (C : Clock T)
    (self : Self T) (w : World T) (payload : bytes) :
  (length payload <= 7)%nat ->
  (forall (fuel : nat) (pl : bytes) (tr : list Effect),
      send self w fuel payload = Some (Ok pl, tr) ->
      forall b rest, pl <> x7f :: b :: x78 :: rest)
  /\
  (forall (j : nat) (m : Message) (pl : bytes),
      (forall i, (i < j)%nat ->
                 in_time self w i = true /\
                 passed_over self (bus_recv w i) = true) ->
      in_time self w j = true ->
      bus_recv w j = Some m ->
      arbitration_id m = res_id self ->
      parse_isotp_single_frame (data m) = Ok pl ->
      (forall b rest, pl <> x7f :: b :: x78 :: rest) ->
      forall fuel, (j < fuel)%nat ->
        exists tr, send self w fuel payload = Some (Ok pl, tr))
  /\
  (forall n : nat,
      (forall k, (k < n)%nat ->
                 in_time self w k = true /\
                 passed_over self (bus_recv w k) = true) ->
      in_time self w n = false ->
      forall fuel, (n < fuel)%nat ->
        exists tr, send self w fuel payload = Some (Raise TimeoutError, tr)).
Proof.
  intros L. destruct (make_isotp_single_frame_ok payload L) as (pci & _ & E).
  unfold send. rewrite E. split; [|split].
  - intros fuel pl tr H b rest ->.
    apply after_Ok in H. destruct H as [tr' H].
    destruct (poll_Ok self w fuel 0 None _ _ H) as (j & m & _ & _ & _ & _ & I & _).
    assert (I' : interim (x7f :: b :: x78 :: rest) = Ok true)
      by (apply interim_true_iff; eauto).
    rewrite I' in I. discriminate I.
  - intros j m pl Hpass Tj Rj Aj Pj Nj fuel Hfuel.
    assert (I : interim pl = Ok false).
    { destruct (interim_total pl) as [[|] I]; [|exact I].
      apply interim_true_iff in I. destruct I as (b & rest & ->).
      exfalso. apply (Nj b rest). reflexivity. }
    destruct (poll_returns self w j fuel 0 None m pl) as [tr Htr];
      try assumption; [intros i Hi; apply Hpass; lia|].
    rewrite Htr. cbn. eauto.
  - intros n Hpass Hlate fuel Hfuel.
    destruct (poll_timeout self w n fuel 0 None) as [tr Htr];
      [intros i Hi; apply Hpass; lia | exact Hlate | exact Hfuel |].
    rewrite Htr. cbn. eauto.
Qed.

Lemma send_response_pending_never_final_witness :
  (exists tr,
      send client_120ms
        (mkWorld (ticks 10)
           (script [Some (mkMessage 0x7E8 false
                            [x03; x7f; x10; x78; x00; x00; x00; x00]);
                    None;
                    Some (mkMessage 0x7E8 false
                            [x02; x50; x03; x00; x00; x00; x00; x00])]))
        5 [x10; x03]
      = Some (Ok [x50; x03], tr))
  /\
  (exists tr,
      send client_120ms
        (mkWorld (ticks 50)
           (script [Some (mkMessage 0x7E8 false
                            [x03; x7f; x10; x78; x00; x00; x00; x00])]))
        5 [x10; x03]
      = Some (Raise TimeoutError, tr)).
Proof.
  assert (L : (length [x10; x03] <= 7)%nat) by (simpl; lia).
  split.
  - apply (proj1 (proj2 (send_response_pending_never_final Z Clock_Z
                           client_120ms
                           (mkWorld (ticks 10)
                              (script
                                 [Some (mkMessage 0x7E8 false
                                          [x03; x7f; x10; x78;
                                           x00; x00; x00; x00]);
                                  None;
                                  Some (mkMessage 0x7E8 false
                                          [x02; x50; x03; x00;
                                           x00; x00; x00; x00])]))
                           [x10; x03] L))
             2%nat
             (mkMessage 0x7E8 false [x02; x50; x03; x00; x00; x00; x00; x00])).
    + intros i Hi. destruct i as [|[|i]]; [split; reflexivity .. | lia].
    + reflexivity.
    + reflexivity.
    + reflexivity.
    + reflexivity.
    + intros b rest H. discriminate H.
    + lia.
  - apply (proj2 (proj2 (send_response_pending_never_final Z Clock_Z
                           client_120ms
                           (mkWorld (ticks 50)
                              (script
                                 [Some (mkMessage 0x7E8 false
                                          [x03; x7f; x10; x78;
                                           x00; x00; x00; x00])]))
                           [x10; x03] L)) 2%nat).
    + intros k Hk. destruct k as [|[|k]]; [split; reflexivity .. | lia].
    + reflexivity.
    + lia.
Defined.

(** C2 as stated fails on its last sentence.  The deadline is tested only
    before each poll.  Here the timeout is 120 ms; the first loop test
    reads 100 ms, so the poll begins; the poll returns a final frame that
    arrived at 130 ms, after the deadline and within the 50 ms of the
    poll; and [send] returns its payload instead of raising
    [TimeoutError].  In the general statement [arrived k] is the clock
    reading at which the frame returned by poll [k] arrived. *)
Lemma send_returns_final_arriving_after_deadline :
  send client_120ms
    (mkWorld late_clock
       (script [Some (mkMessage 0x7E8 false
                        [x02; x50; x01; x00; x00; x00; x00; x00])]))
    5 [x10; x01]
  = Some (Ok [x50; x01],
          [BusSend (mkMessage 0x7E0 false
                      [x02; x10; x01; x00; x00; x00; x00; x00])])
  /\
  ~ (forall (self : Self Z) (w : World Z) (arrived : nat -> Z)
            (payload : bytes) (n fuel : nat),
        (length payload <= 7)%nat ->
        (forall k m, bus_recv w k = Some m ->
                     time_time w (S k) <= arrived k <= time_time w (S k) + 50) ->
        (forall k m, bus_recv w k = Some m ->
                     passed_over self (Some m) = false ->
                     timeout self <= arrived k - time_time w 0) ->
        in_time self w n = false ->
        (n < fuel)%nat ->
        exists tr, send self w fuel payload = Some (Raise TimeoutError, tr)).
Proof.
  split; [reflexivity|].
  intros H.
  destruct (H client_120ms
              (mkWorld late_clock
                 (script [Some (mkMessage 0x7E8 false
                                  [x02; x50; x01; x00; x00; x00; x00; x00])]))
              (fun _ => 130) [x10; x01] 1%nat 5%nat) as [tr E].
  - simpl. lia.
  - intros k m R. destruct k as [|k].
    + cbn. lia.
    + destruct k; discriminate R.
  - intros k m R _. cbn. lia.
  - reflexivity.
  - lia.
  - discriminate E.
Qed.

(** C6, as the code has it.  A payload returned by [send] was decoded from
    a received frame whose arbitration id is the configured response id, it
    is not an interim payload, and every poll before that frame returned
    nothing, a frame from another id, or an interim payload.  Conversely the
    first frame from the response id whose payload is not interim, when it
    is received in time, has its payload returned, empty or not. *)
Theorem send_returns_first_final_response (T : Type) (C : Clock T)
    (self : Self T) (w : World T) (payload pl : bytes) :
  (length payload <= 7)%nat ->
  (forall (fuel : nat) (tr : list Effect),
      send self w fuel payload = Some (Ok pl, tr) ->
      exists (j : nat) (m : Message),
        bus_recv w j = Some m /\
        arbitration_id m = res_id self /\
        parse_isotp_single_frame (data m) = Ok pl /\
        (forall b rest, pl <> x7f :: b :: x78 :: rest) /\
        (forall i, (i < j)%nat -> passed_over self (bus_recv w i) = true))
  /\
  (forall (j : nat) (m : Message),
      (forall i, (i < j)%nat ->
                 in_time self w i = true /\
                 passed_over self (bus_recv w i) = true) ->
      in_time self w j = true ->
      bus_recv w j = Some m ->
      arbitration_id m = res_id self ->
      parse_isotp_single_frame (data m) = Ok pl ->
      (forall b rest, pl <> x7f :: b :: x78 :: rest) ->
      forall fuel, (j < fuel)%nat ->
        exists tr, send self w fuel payload = Some (Ok pl, tr)).
Proof.
  intros L. destruct (make_isotp_single_frame_ok payload L) as (pci & _ & E).
  unfold send. rewrite E. split.
  - intros fuel tr H. apply after_Ok in H. destruct H as [tr' H].
    destruct (poll_Ok self w fuel 0 None _ _ H)
      as (j & m & _ & R & A & P & I & S).
    exists j, m. repeat split; try assumption.
    + intros b rest ->.
      assert (I' : interim (x7f :: b :: x78 :: rest) = Ok true)
        by (apply interim_true_iff; eauto).
      rewrite I' in I. discriminate I.
    + intros i Hi. apply S. lia.
  - intros j m Hpass Tj Rj Aj Pj Nj fuel Hfuel.
    assert (I : interim pl = Ok false).
    { destruct (interim_total pl) as [[|] I]; [|exact I].
      apply interim_true_iff in I. destruct I as (b & rest & ->).
      exfalso. apply (Nj b rest). reflexivity. }
    destruct (poll_returns self w j fuel 0 None m pl) as [tr Htr];
      try assumption; [intros i Hi; apply Hpass; lia|].
    rewrite Htr. cbn. eauto.
Qed.

Lemma send_returns_first_final_response_witness :
  exists tr,
    send client_120ms
      (mkWorld (ticks 10)
         (script
            [Some (mkMessage 0x123 false [x02; x50; x02; x00; x00; x00; x00; x00]);
             Some (mkMessage 0x7E8 false [x02; x50; x01; x00; x00; x00; x00; x00])]))
      5 [x10; x01]
    = Some (Ok [x50; x01], tr).
Proof.
  assert (L : (length [x10; x01] <= 7)%nat) by (simpl; lia).
  apply (proj2 (send_returns_first_final_response Z Clock_Z client_120ms
                  (mkWorld (ticks 10)
                     (script
                        [Some (mkMessage 0x123 false
                                 [x02; x50; x02; x00; x00; x00; x00; x00]);
                         Some (mkMessage 0x7E8 false
                                 [x02; x50; x01; x00; x00; x00; x00; x00])]))
                  [x10; x01] [x50; x01] L)
           1%nat
           (mkMessage 0x7E8 false [x02; x50; x01; x00; x00; x00; x00; x00])).
  - intros i Hi. destruct i as [|i]; [split; reflexivity | lia].
  - reflexivity.
  - reflexivity.
  - reflexivity.
  - reflexivity.
  - intros b rest H. discriminate H.
  - lia.
Defined.

(** C6 as stated fails: a frame on the response id whose length nibble is 0
    decodes to the empty payload, which is not an interim payload, so [send]
    returns it. *)
Lemma send_returns_empty_payload :
  send client_120ms
    (mkWorld (ticks 10)
       (script [Some (mkMessage 0x7E8 false
                        [x00; x00; x00; x00; x00; x00; x00; x00])]))
    5 [x3e; x00]
  = Some (Ok [],
          [BusSend (mkMessage 0x7E0 false
                      [x02; x3e; x00; x00; x00; x00; x00; x00])])
  /\
  ~ (forall (self : Self Z) (w : World Z) (fuel : nat) (payload pl : bytes)
            (tr : list Effect),
        send self w fuel payload = Some (Ok pl, tr) -> pl <> []).
Proof.
  split; [reflexivity|].
  intros H.
  apply (H client_120ms
           (mkWorld (ticks 10)
              (script [Some (mkMessage 0x7E8 false
                               [x00; x00; x00; x00; x00; x00; x00; x00])]))
           5%nat [x3e; x00] []
           [BusSend (mkMessage 0x7E0 false
                       [x02; x3e; x00; x00; x00; x00; x00; x00])]);
    reflexivity.
Qed.

(** ** Worked examples *)

(** A seed request followed by a wrong key: the invalid-key reply, and the
    unit stays locked. *)
Example wrong_key_stays_locked :
  run [ (Some (mkMessage 0x7E0 false [x02; x27; x01; x00; x00; x00; x00; x00]),
         0xBEEF);
        (Some (mkMessage 0x7E0 false [x04; x27; x02; xbe; xef; x00; x00; x00]),
         0) ]
      (__init__ ECUConfig_default)
  = (Ok tt,
     {| cfg := ECUConfig_default; unlocked := false;
        _last_seed := Some 0xBEEF;
        did_map := did_map (__init__ ECUConfig_default) |},
     [BusSend (mkMessage 0x7E8 false [x04; x67; x01; xbe; xef; x00; x00; x00]);
      BusSend (mkMessage 0x7E8 false [x03; x7f; x27; x35; x00; x00; x00; x00])]).
Proof. reflexivity. Qed.

(** Reading identifier F187 returns "V10"; an unmapped identifier is out of
    range. *)
Example read_did_F187 :
  run_once
    (Some (mkMessage 0x7E0 false [x03; x22; xf1; x87; x00; x00; x00; x00]))
    0 (__init__ ECUConfig_default)
  = (Ok tt, __init__ ECUConfig_default,
     [BusSend (mkMessage 0x7E8 false [x06; x62; xf1; x87; x56; x31; x30; x00])]).
Proof. reflexivity. Qed.

Example read_did_unmapped :
  run_once
    (Some (mkMessage 0x7E0 false [x03; x22; xf1; xff; x00; x00; x00; x00]))
    0 (__init__ ECUConfig_default)
  = (Ok tt, __init__ ECUConfig_default,
     [BusSend (mkMessage 0x7E8 false [x03; x7f; x22; x31; x00; x00; x00; x00])]).
Proof. reflexivity. Qed.

(** The client's view of an extended-session request: the interim payload
    is shown once and the final payload is returned. *)
Example client_sees_interim_then_final :
  send client_120ms
    (mkWorld (ticks 10)
       (script [None;
                Some (mkMessage 0x7E8 false [x03; x7f; x10; x78; x00; x00; x00; x00]);
                None;
                Some (mkMessage 0x7E8 false [x02; x50; x03; x00; x00; x00; x00; x00])]))
    8 [x10; x03]
  = Some (Ok [x50; x03],
          [BusSend (mkMessage 0x7E0 false [x02; x10; x03; x00; x00; x00; x00; x00]);
           ShowInterim [x7f; x10; x78]]).
Proof. reflexivity. Qed.


(** ** Transaction engine, continued *)

Lemma after_Some (e : Effect) (rest : option (Result bytes * list Effect))
    (res : Result bytes) (tr : list Effect) :
  after e rest = Some (res, tr) ->
  exists tr', rest = Some (res, tr') /\ tr = e :: tr'.
Proof.
  destruct rest as [[r t]|]; [|discriminate]. cbn. intros E.
  injection E as -> <-. eauto.
Qed.

Lemma differs_true (pl : bytes) (last : option bytes) :
  differs pl last = true -> last <> Some pl.
Proof.
  destruct last as [prev|]; [|discriminate]. cbn. unfold bytes_eqb.
  destruct (list_eq_dec Byte.byte_eq_dec pl prev); [discriminate|].
  intros _ E. injection E as ->. contradiction.
Qed.

Section EngineTrace.

Context {T : Type} {C : Clock T}.
Variables (self : Self T) (w : World T).

(** The loop only ever shows interim payloads, never the same one twice in
    a row, and none at all when [show_interim] is off. *)
Lemma poll_trace (fuel : nat) :
  forall (k : nat) (last : option bytes) (res : Result bytes)
         (tr : list Effect),
    poll self w (time_time w 0) fuel k last = Some (res, tr) ->
    exists shown,
      tr = map ShowInterim shown /\
      (show_interim self = false -> shown = []) /\
      Forall (fun pl => exists b rest, pl = x7f :: b :: x78 :: rest) shown /\
      no_repeat last shown.
Proof.
  induction fuel as [|fuel IH]; intros k last res tr H; [discriminate|].
  cbn [poll] in H.
  assert (none : exists shown : list bytes,
             [] = map ShowInterim shown /\
             (show_interim self = false -> shown = []) /\
             Forall (fun pl => exists b rest, pl = x7f :: b :: x78 :: rest)
                    shown /\
             no_repeat last shown)
    by (exists []; repeat split; constructor).
  destruct (t_lt _ _); [|injection H as <- <-; exact none].
  destruct (bus_recv w k) as [r|]; [|eapply IH; eassumption].
  destruct (arbitration_id r =? res_id self); [|eapply IH; eassumption].
  destruct (parse_isotp_single_frame (data r)) as [pl|];
    [|injection H as <- <-; exact none].
  destruct (interim pl) as [[|]|] eqn:I;
    [| injection H as <- <-; exact none | injection H as <- <-; exact none].
  destruct (show_interim self) eqn:S; cbn [andb] in H;
    [|eapply IH; eassumption].
  destruct (differs pl last) eqn:D; [|eapply IH; eassumption].
  apply after_Some in H. destruct H as (tr' & H & ->).
  destruct (IH _ _ _ _ H) as (shown & -> & _ & F & N).
  exists (pl :: shown). repeat split.
  - discriminate.
  - constructor; [apply interim_true_iff, I | exact F].
  - apply differs_true, D.
  - exact N.
Qed.

End EngineTrace.

(** X27. A call of [send] with a payload of at most 7 bytes comes to an
    end once the clock has run past the deadline, and by then it has put
    exactly one frame on the bus, first of all: the encoded request, on the
    request id.  Everything after it in the trace is the display of an
    interim payload, and nothing is displayed when [show_interim] is
    off. *)
Theorem send_transmits_the_request_once (T : Type) (C : Clock T)
    (self : Self T) (w : World T) (n fuel : nat) (payload : bytes) :
  (length payload <= 7)%nat ->
  in_time self w n = false ->
  (n < fuel)%nat ->
  exists res shown,
    send self w fuel payload
    = Some (res,
            BusSend (mkMessage (req_id self) false (single_frame payload))
            :: map ShowInterim shown) /\
    (show_interim self = false -> shown = []) /\
    Forall (fun pl => exists b rest, pl = x7f :: b :: x78 :: rest) shown.
Proof.
  intros L Hlate Hfuel.
  destruct (send_terminates self w payload n fuel Hlate Hfuel) as [[res tr] H].
  rewrite H. unfold send in H. rewrite (single_frame_eq payload L) in H.
  apply after_Some in H. destruct H as (tr' & H & ->).
  destruct (poll_trace self w fuel 0 None res tr' H) as (shown & -> & S & F & _).
  exists res, shown. auto.
Qed.

Lemma send_transmits_the_request_once_witness :
  exists res shown,
    send client_120ms
      (mkWorld (ticks 10)
         (script [Some (mkMessage 0x7E8 false
                          [x03; x7f; x10; x78; x00; x00; x00; x00]);
                  Some (mkMessage 0x7E8 false
                          [x02; x50; x03; x00; x00; x00; x00; x00])]))
      12 [x10; x03]
    = Some (res,
            BusSend (mkMessage (req_id client_120ms) false
                       (single_frame [x10; x03]))
            :: map ShowInterim shown) /\
    (show_interim client_120ms = false -> shown = []) /\
    Forall (fun pl => exists b rest, pl = x7f :: b :: x78 :: rest) shown.
Proof.
  apply (send_transmits_the_request_once Z Clock_Z client_120ms
           (mkWorld (ticks 10)
              (script [Some (mkMessage 0x7E8 false
                               [x03; x7f; x10; x78; x00; x00; x00; x00]);
                       Some (mkMessage 0x7E8 false
                               [x02; x50; x03; x00; x00; x00; x00; x00])]))
           11 12 [x10; x03]).
  - simpl. lia.
  - reflexivity.
  - lia.
Defined.

(** X28. Display de-duplication: among the interim payloads a call of [send]
    displays, none equals the one displayed just before it. *)
Theorem send_never_shows_an_interim_twice_in_a_row (T : Type) (C : Clock T)
    (self : Self T) (w : World T) (fuel : nat) (payload : bytes)
    (res : Result bytes) (first : Effect) (shown : list bytes) :
  send self w fuel payload = Some (res, first :: map ShowInterim shown) ->
  no_repeat None shown.
Proof.
  intros H. unfold send in H.
  destruct (make_isotp_single_frame payload) as [frame|]; [|discriminate].
  apply after_Some in H. destruct H as (tr' & H & E). injection E as _ E.
  destruct (poll_trace self w fuel 0 None res tr' H) as (shown' & E' & _ & _ & N).
  rewrite E' in E.
  assert (shown = shown'); [|subst; exact N].
  clear - E. revert shown' E.
  induction shown as [|a l IH]; intros [|b l'] E; try discriminate E.
  - reflexivity.
  - cbn [map] in E. injection E as -> E. f_equal. apply IH, E.
Qed.

Lemma send_never_shows_an_interim_twice_in_a_row_witness :
  no_repeat None [[x7f; x10; x78]; [x7f; x11; x78]].
Proof.
  apply (send_never_shows_an_interim_twice_in_a_row Z Clock_Z client_120ms
           (mkWorld (ticks 10)
              (script [Some (mkMessage 0x7E8 false
                               [x03; x7f; x10; x78; x00; x00; x00; x00]);
                       Some (mkMessage 0x7E8 false
                               [x03; x7f; x10; x78; x00; x00; x00; x00]);
                       Some (mkMessage 0x7E8 false
                               [x03; x7f; x11; x78; x00; x00; x00; x00]);
                       Some (mkMessage 0x7E8 false
                               [x02; x50; x03; x00; x00; x00; x00; x00])]))
           8 [x10; x03] (Ok [x50; x03])
           (BusSend (mkMessage 0x7E0 false
                       [x02; x10; x03; x00; x00; x00; x00; x00]))).
  reflexivity.
Defined.

(** X29. Against the stub, [send] returns a reply from the stub's
    catalogue.  If every frame the client's polls return on the response
    id is one the stub sent (in some run of its loop, whenever and in
    whatever order the polls return them), then a payload returned by
    [send] is one of the stub's final replies: it has 2 to 7 bytes, so it
    is never empty, and it is not the pending reply. *)
Theorem send_against_the_stub_returns_a_final_reply (T : Type) (C : Clock T)
    (self : Self T) (w : World T) (ecu : MiniECUStub.Self)
    (inbox : list (option Message * Z)) (fuel : nat) (payload pl : bytes)
    (tr : list Effect) :
  res_id self = stub_res_id ecu ->
  (forall k m,
      bus_recv w k = Some m ->
      arbitration_id m = res_id self ->
      In m (frames_sent (snd (run inbox ecu)))) ->
  send self w fuel payload = Some (Ok pl, tr) ->
  stub_final pl /\ (2 <= length pl <= 7)%nat.
Proof.
  intros Rs Hin H. unfold send in H.
  destruct (make_isotp_single_frame payload) as [frame|]; [|discriminate].
  apply after_Ok in H. destruct H as [tr' H].
  destruct (poll_Ok self w fuel 0 None _ _ H)
    as (j & m & _ & R & A & P & I & _).
  destruct (run_known_replies inbox ecu) as (s & t & E & _ & F).
  pose proof (Hin j m R A) as M. rewrite E in M. cbn [snd] in M.
  rewrite Forall_forall in F. destruct (F m M) as (pl' & -> & K).
  cbn [data] in P.
  assert (L : (2 <= length pl' <= 7)%nat).
  { destruct K as [-> | K]; [cbn [length pending_reply]; lia|].
    apply stub_final_final_reply in K. destruct K as [K _]. exact K. }
  destruct (single_frame_facts pl') as [_ P']; [lia|].
  rewrite P' in P. injection P as ->.
  destruct K as [-> | K]; [discriminate I|].
  split; [exact K | exact L].
Qed.

Lemma send_against_the_stub_returns_a_final_reply_witness :
  send client_1500ms
    (mkWorld (ticks 50)
       (script [Some (mkMessage 0x7E8 false (single_frame [x7f; x10; x78]));
                None; None; None;
                Some (mkMessage 0x7E8 false (single_frame [x50; x03]))]))
    8 [x10; x03]
  = Some (Ok [x50; x03],
          [BusSend (mkMessage 0x7E0 false (single_frame [x10; x03]));
           ShowInterim [x7f; x10; x78]])
  /\
  (stub_final [x50; x03] /\ (2 <= length [x50; x03] <= 7)%nat).
Proof.
  split; [reflexivity|].
  apply (send_against_the_stub_returns_a_final_reply Z Clock_Z client_1500ms
           (mkWorld (ticks 50)
              (script [Some (mkMessage 0x7E8 false (single_frame [x7f; x10; x78]));
                       None; None; None;
                       Some (mkMessage 0x7E8 false (single_frame [x50; x03]))]))
           (__init__ ECUConfig_default)
           [(Some (mkMessage 0x7E0 false (single_frame [x10; x03])), 0)]
           8 [x10; x03] [x50; x03]
           [BusSend (mkMessage 0x7E0 false (single_frame [x10; x03]));
            ShowInterim [x7f; x10; x78]]).
  - reflexivity.
  - intros k m R _.
    do 5 (destruct k as [|k];
          [cbv [script nth] in R;
           first [discriminate R
                 | injection R as <-;
                   first [left; reflexivity | right; left; reflexivity]]|]).
    cbv [script nth] in R. destruct k; discriminate R.
  - reflexivity.
Defined.
